(** * pdfex: a shallow embedding of the parser pipeline

    The Go sources are embedded as executable Rocq functions:

    - Go [int] / [int64] values are [Z]; a [byte] is a [Z] in [0, 255] and
      byte arithmetic wraps with [wrap8];
    - a [[]byte] holding binary stream data or extracted text is a
      [list Z]; PDF syntax (dictionary values, filter names, lines of the
      file) is a [string];
    - a Go [map] is a [gmap];
    - a function that returns [(value, error)] returns a [result]; a run-time
      panic (index out of range, integer division by zero, failed type
      assertion) is the third constructor [Panic];
    - the standard-library decoders [compress/zlib] and [encoding/ascii85]
      are section variables of the filter chain. *)

From Stdlib Require Import ZArith List String Ascii Lia Bool.
From stdpp Require Import base gmap strings list.
From Equations Require Import Equations.
Import ListNotations.
Local Open Scope string_scope.
Local Open Scope list_scope.
Local Open Scope Z_scope.

(** ** Results of fallible Go functions *)

Inductive result (A : Type) : Type :=
| Ok (a : A)
| Err (msg : string)
| Panic (msg : string).
Arguments Ok {A} a.
Arguments Err {A} msg.
Arguments Panic {A} msg.

#[global] Instance result_ret : MRet result := fun A a => Ok a.

#[global] Instance result_bind : MBind result := fun A B k r =>
  match r with
  | Ok a => k a
  | Err m => Err m
  | Panic m => Panic m
  end.

(** [for i := 0; i < n; i++ { s = body i s }], stopping at the first error
    or panic. *)
Fixpoint for_loop_from {S : Type} (start : Z) (n : nat)
    (body : Z -> S -> result S) (s : S) : result S :=
  match n with
  | O => Ok s
  | Datatypes.S n' => s' ← body start s; for_loop_from (start + 1) n' body s'
  end.

Definition for_loop {S : Type} (n : Z) (body : Z -> S -> result S) (s : S)
    : result S :=
  for_loop_from 0 (Z.to_nat n) body s.

(** ** Bytes and slices *)

Definition wrap8 (x : Z) : Z := x mod 256.

Definition len {A : Type} (l : list A) : Z := Z.of_nat (length l).

(** [l[i]] with Go's bounds check. *)
Definition index_at (l : list Z) (i : Z) : result Z :=
  if (0 <=? i) && (i <? len l) then
    match l !! Z.to_nat i with
    | Some x => Ok x
    | None => Panic "index out of range"
    end
  else Panic "index out of range".

(** [l[lo:hi]] on an immutable source with Go's bounds check. *)
Definition slice_of (l : list Z) (lo hi : Z) : result (list Z) :=
  if (0 <=? lo) && (lo <=? hi) && (hi <=? len l) then
    Ok (firstn (Z.to_nat (hi - lo)) (skipn (Z.to_nat lo) l))
  else Panic "slice bounds out of range".

(** A window [buf[lo:hi]] into a buffer that is written through the window:
    the window shares [buf], so it is kept as its bounds. *)
Record window : Type := { w_lo : Z; w_hi : Z }.

Definition window_of (buf : list Z) (lo hi : Z) : result window :=
  if (0 <=? lo) && (lo <=? hi) && (hi <=? len buf) then
    Ok {| w_lo := lo; w_hi := hi |}
  else Panic "slice bounds out of range".

Definition w_len (w : window) : Z := w_hi w - w_lo w.

Definition w_get (w : window) (buf : list Z) (k : Z) : result Z :=
  if (0 <=? k) && (k <? w_len w) then index_at buf (w_lo w + k)
  else Panic "index out of range".

Definition w_set (w : window) (buf : list Z) (k : Z) (x : Z)
    : result (list Z) :=
  if (0 <=? k) && (k <? w_len w) then
    if (0 <=? w_lo w + k) && (w_lo w + k <? len buf) then
      Ok (<[Z.to_nat (w_lo w + k) := x]> buf)
    else Panic "index out of range"
  else Panic "index out of range".

(** [copy(dst, src)] through a window: copies [min(len dst, len src)]
    elements and never panics. *)
Fixpoint copy_at (buf : list Z) (pos : nat) (src : list Z) (n : nat)
    : list Z :=
  match n, src with
  | Datatypes.S n', x :: src' => copy_at (<[pos := x]> buf) (Datatypes.S pos) src' n'
  | _, _ => buf
  end.

Definition w_copy (w : window) (buf : list Z) (src : list Z) : list Z :=
  copy_at buf (Z.to_nat (w_lo w)) src (Z.to_nat (w_len w)).

(** ** Go strings *)

Module GoString.

Definition chars (s : string) : list ascii := list_ascii_of_string s.
Definition str (l : list ascii) : string := string_of_list_ascii l.

Definition byte_of (c : ascii) : Z := Z.of_N (N_of_ascii c).
Definition to_bytes (s : string) : list Z := map byte_of (chars s).

Fixpoint has_prefix (p s : list ascii) : bool :=
  match p, s with
  | [], _ => true
  | a :: p', b :: s' => Ascii.eqb a b && has_prefix p' s'
  | _ :: _, [] => false
  end.

Definition HasPrefix (s prefix : string) : bool :=
  has_prefix (chars prefix) (chars s).

Definition HasSuffix (s suffix : string) : bool :=
  has_prefix (rev (chars suffix)) (rev (chars s)).

(** [strings.Index] / [bytes.Index]: position of the first occurrence. *)
Fixpoint index_of (sub s : list ascii) : option nat :=
  if has_prefix sub s then Some O
  else match s with
       | [] => None
       | _ :: t => option_map Datatypes.S (index_of sub t)
       end.

Definition Index (s sub : string) : Z :=
  match index_of (chars sub) (chars s) with
  | Some i => Z.of_nat i
  | None => -1
  end.

Definition Contains (s sub : string) : bool :=
  match index_of (chars sub) (chars s) with
  | Some _ => true
  | None => false
  end.

Definition is_digit (c : ascii) : bool :=
  let n := byte_of c in (48 <=? n) && (n <=? 57).

(** The regexp class [\s] of Go's RE2 syntax: tab, newline, form feed,
    carriage return, space. *)
Definition is_space (c : ascii) : bool :=
  let n := byte_of c in
  (n =? 9) || (n =? 10) || (n =? 12) || (n =? 13) || (n =? 32).

Fixpoint span (p : ascii -> bool) (s : list ascii)
    : list ascii * list ascii :=
  match s with
  | c :: t => if p c then let '(a, b) := span p t in (c :: a, b)
              else ([], s)
  | [] => ([], [])
  end.

Definition digits_value (ds : list ascii) : Z :=
  fold_left (fun acc c => acc * 10 + (byte_of c - 48)) ds 0.

Definition max_int64 : Z := 9223372036854775807.
Definition min_int64 : Z := -9223372036854775808.

(** [strconv.ParseInt(s, 10, 64)] on a string of decimal digits. *)
Definition parse_digits (ds : list ascii) : result Z :=
  match ds with
  | [] => Err "invalid syntax"
  | _ =>
      if forallb is_digit ds then
        let v := digits_value ds in
        if v <=? max_int64 then Ok v else Err "value out of range"
      else Err "invalid syntax"
  end.

(** [strconv.Atoi]: an optional sign and decimal digits, within the
    range of a 64-bit [int]. *)
Definition Atoi (s : string) : result Z :=
  match chars s with
  | "+"%char :: ds => parse_digits ds
  | "-"%char :: ds =>
      match ds with
      | [] => Err "invalid syntax"
      | _ =>
          if forallb is_digit ds then
            let v := digits_value ds in
            if v <=? - min_int64 then Ok (- v) else Err "value out of range"
          else Err "invalid syntax"
      end
  | ds => parse_digits ds
  end.

(** The two errors of [strconv]. *)
Inductive NumError : Type := ErrSyntax | ErrRange.

Definition max_uint64 : Z := 18446744073709551615.

(** The loop of [strconv.ParseUint(s, 10, 64)] over the bytes of [s]: the
    value and the error.  A byte that is not a digit is a syntax error;
    a value past [max_uint64] is a range error, reported at the digit that
    overflows, before the bytes after it are looked at. *)
Fixpoint parseUintLoop (ds : list ascii) (n : Z) : Z * option NumError :=
  match ds with
  | [] => (n, None)
  | c :: t =>
      if is_digit c then
        if max_uint64 / 10 + 1 <=? n then (max_uint64, Some ErrRange)
        else
          let n1 := n * 10 + (byte_of c - 48) in
          if max_uint64 <? n1 then (max_uint64, Some ErrRange)
          else parseUintLoop t n1
      else (0, Some ErrSyntax)
  end.

Definition ParseUint (ds : list ascii) : Z * option NumError :=
  match ds with
  | [] => (0, Some ErrSyntax)
  | _ => parseUintLoop ds 0
  end.

(** [strconv.Atoi] as Go returns it, the [int] and the error: an
    optional sign and [ParseUint]; on a syntax error the value is 0, on a
    range error it is the bound of [int] on the side of the sign. *)
Definition AtoiPair (s : string) : Z * option NumError :=
  match chars s with
  | [] => (0, Some ErrSyntax)
  | c :: t =>
      let neg := Ascii.eqb c "-" in
      let ds := if Ascii.eqb c "+" || Ascii.eqb c "-" then t else c :: t in
      match ParseUint ds with
      | (_, Some ErrSyntax) => (0, Some ErrSyntax)
      | (un, _) =>
          if negb neg && (- min_int64 <=? un) then
            (max_int64, Some ErrRange)
          else if neg && (- min_int64 <? un) then
            (min_int64, Some ErrRange)
          else (if neg then - un else un, None)
      end
  end.

(** The [int] that [strconv.Atoi] returns, its error dropped. *)
Definition AtoiValue (s : string) : Z := fst (AtoiPair s).

End GoString.

(** ** PDF values held in a dictionary

    [map[string]interface{}]: a value is a string taken from the file or a
    nested dictionary. *)

#[local] Set Warnings "-register-all".
Inductive PDFValue : Type :=
| VString (s : string)
| VDict (entries : list (string * PDFValue)).

(** The type assertion [v.(string)]. *)
Definition as_string (v : PDFValue) : result string :=
  match v with
  | VString s => Ok s
  | VDict _ => Panic "interface conversion: interface {} is not string"
  end.

(** 64-bit wrap-around of [int] arithmetic. *)
Definition wrap_int (x : Z) : Z := (x + 2 ^ 63) mod 2 ^ 64 - 2 ^ 63.

(** ** internal/utils/parsing.go *)

Module Utils.
Import GoString.

Definition is_ws (c : ascii) : bool :=
  Ascii.eqb c " " || Ascii.eqb c "009" || Ascii.eqb c "010"
  || Ascii.eqb c "013".

Definition flush (items : list string) (currentItem : list ascii)
    : list string :=
  match currentItem with
  | [] => items
  | _ => items ++ [str currentItem]
  end.

(** The scanning loop of [ParseArray]; [content] is [content[i:]]. *)
Fixpoint parseArrayLoop (content : list ascii) (items : list string)
    (currentItem : list ascii) (nestedLevel dictLevel : Z) : list string :=
  match content with
  | [] => flush items currentItem
  | c :: rest =>
      if Ascii.eqb c "[" then
        parseArrayLoop rest items (currentItem ++ [c]) (nestedLevel + 1) dictLevel
      else if Ascii.eqb c "]" then
        parseArrayLoop rest items (currentItem ++ [c]) (nestedLevel - 1) dictLevel
      else
        match rest with
        | c2 :: rest' =>
            if Ascii.eqb c "<" && Ascii.eqb c2 "<" then
              parseArrayLoop rest' items (currentItem ++ chars "<<")
                nestedLevel (dictLevel + 1)
            else if Ascii.eqb c ">" && Ascii.eqb c2 ">" then
              parseArrayLoop rest' items (currentItem ++ chars ">>")
                nestedLevel (dictLevel - 1)
            else if is_ws c && (nestedLevel =? 0) && (dictLevel =? 0) then
              parseArrayLoop rest (flush items currentItem) [] nestedLevel dictLevel
            else
              parseArrayLoop rest items (currentItem ++ [c]) nestedLevel dictLevel
        | [] =>
            if is_ws c && (nestedLevel =? 0) && (dictLevel =? 0) then
              parseArrayLoop rest (flush items currentItem) [] nestedLevel dictLevel
            else
              parseArrayLoop rest items (currentItem ++ [c]) nestedLevel dictLevel
        end
  end.

Definition ParseArray (arrayStr : string) : list string :=
  if negb (HasPrefix arrayStr "[") || negb (HasSuffix arrayStr "]") then []
  else
    let content := removelast (tl (chars arrayStr)) in
    parseArrayLoop content [] [] 0 0.

(** [refPattern = (\d+)\s+\d+\s+R] tried at the start of [s]: the digits
    of the first group.  The classes [\d], [\s] and the letter [R] are
    disjoint, so each greedy run is the only split that can match. *)
Definition match_ref_here (s : list ascii) : option (list ascii) :=
  let '(d1, r1) := span is_digit s in
  let '(w1, r2) := span is_space r1 in
  let '(d2, r3) := span is_digit r2 in
  let '(w2, r4) := span is_space r3 in
  match d1, w1, d2, w2, r4 with
  | _ :: _, _ :: _, _ :: _, _ :: _, c :: _ =>
      if Ascii.eqb c "R" then Some d1 else None
  | _, _, _, _, _ => None
  end.

(** [refPattern.FindStringSubmatch]: the leftmost match. *)
Fixpoint find_ref (s : list ascii) : option (list ascii) :=
  match match_ref_here s with
  | Some d => Some d
  | None => match s with
            | [] => None
            | _ :: t => find_ref t
            end
  end.

Definition ExtractReference (ref : string) : result Z :=
  match find_ref (chars ref) with
  | Some d =>
      match parse_digits d with
      | Ok objNum => Ok objNum
      | Err e => Err ("invalid object number: " +:+ e)
      | Panic m => Panic m
      end
  | None => Err ("invalid reference format: " +:+ ref)
  end.

(** *** parsing.go: predicates on values *)

Definition IsReference (s : string) : bool :=
  match find_ref (chars s) with
  | Some _ => true
  | None => false
  end.

Definition IsDictionary (s : string) : bool :=
  HasPrefix s "<<" && HasSuffix s ">>".

Definition IsArray (s : string) : bool :=
  HasPrefix s "[" && HasSuffix s "]".

Definition IsName (s : string) : bool := HasPrefix s "/".

(** *** parsing.go: DecodePDFString *)

Definition char_of (n : Z) : ascii := ascii_of_N (Z.to_N n).

Definition hex_digit (c : ascii) : option Z :=
  let n := byte_of c in
  if (48 <=? n) && (n <=? 57) then Some (n - 48)
  else if (97 <=? n) && (n <=? 102) then Some (n - 87)
  else if (65 <=? n) && (n <=? 70) then Some (n - 55)
  else None.

(** [strconv.ParseUint(s, 16, 8)] on the two characters [a], [b]. *)
Definition parse_hex_pair (a b : ascii) : result ascii :=
  match hex_digit a, hex_digit b with
  | Some x, Some y => Ok (char_of (16 * x + y))
  | _, _ => Err "invalid syntax"
  end.

(** The loop over the hex digits, two at a time; [hexStr] is
    [hexStr[i:]]. *)
Fixpoint decodeHexLoop (hexStr : list ascii) (bytes : list ascii)
    : result (list ascii) :=
  match hexStr with
  | [] => Ok bytes
  | a :: rest =>
      match rest with
      | [] => b ← parse_hex_pair a "0"; Ok (bytes ++ [b])
      | b :: rest' =>
          x ← parse_hex_pair a b;
          decodeHexLoop rest' (bytes ++ [x])
      end
  end.

Definition isOctalDigit (c : ascii) : bool :=
  let n := byte_of c in (48 <=? n) && (n <=? 55).

Definition octal_value (c : ascii) : Z := byte_of c - 48.

(** The character an escape letter stands for. *)
Definition escape_char (e : ascii) : option ascii :=
  if Ascii.eqb e "n" then Some "010"%char
  else if Ascii.eqb e "r" then Some "013"%char
  else if Ascii.eqb e "t" then Some "009"%char
  else if Ascii.eqb e "b" then Some "008"%char
  else if Ascii.eqb e "f" then Some "012"%char
  else if Ascii.eqb e "(" then Some "("%char
  else if Ascii.eqb e ")" then Some ")"%char
  else if Ascii.eqb e "\" then Some "\"%char
  else None.

(** The loop over a literal string; [s] is [str[i:]] and [out] is
    [result]. *)
Fixpoint decodeLiteralLoop (s : list ascii) (out : list ascii) : list ascii :=
  match s with
  | [] => out
  | c :: rest =>
      match rest with
      | [] => out ++ [c]
      | e :: rest1 =>
          if Ascii.eqb c "\" then
            match escape_char e with
            | Some x => decodeLiteralLoop rest1 (out ++ [x])
            | None =>
                if Ascii.eqb e "013" || Ascii.eqb e "010" then
                  match rest1 with
                  | l :: rest2 =>
                      if Ascii.eqb e "013" && Ascii.eqb l "010"
                      then decodeLiteralLoop rest2 out
                      else decodeLiteralLoop rest1 out
                  | [] => decodeLiteralLoop rest1 out
                  end
                else if isOctalDigit e then
                  match rest1 with
                  | d2 :: rest2 =>
                      if isOctalDigit d2 then
                        match rest2 with
                        | d3 :: rest3 =>
                            if isOctalDigit d3 then
                              let val := 64 * octal_value e
                                         + 8 * octal_value d2
                                         + octal_value d3 in
                              if val <=? 255
                              then decodeLiteralLoop rest3 (out ++ [char_of val])
                              else decodeLiteralLoop rest1 (out ++ [e])
                            else
                              decodeLiteralLoop rest2
                                (out ++ [char_of (8 * octal_value e
                                                  + octal_value d2)])
                        | [] =>
                            decodeLiteralLoop rest2
                              (out ++ [char_of (8 * octal_value e
                                                + octal_value d2)])
                        end
                      else decodeLiteralLoop rest1 (out ++ [char_of (octal_value e)])
                  | [] => decodeLiteralLoop rest1 (out ++ [char_of (octal_value e)])
                  end
                else decodeLiteralLoop rest1 (out ++ [e])
            end
          else decodeLiteralLoop rest (out ++ [c])
      end
  end.

Definition DecodePDFString (s : string) : result string :=
  if HasPrefix s "<" && HasSuffix s ">" then
    bytes ← decodeHexLoop (removelast (tl (chars s))) [];
    Ok (str bytes)
  else if HasPrefix s "(" && HasSuffix s ")" then
    Ok (str (decodeLiteralLoop (removelast (tl (chars s))) []))
  else Ok s.

End Utils.

(** ** internal/content: predictors *)

Module Content.
Import GoString.

Definition abs (x : Z) : Z := if x <? 0 then - x else x.

Definition paethPredictor (a b c : Z) : Z :=
  let p := a + b - c in
  let pa := abs (p - a) in
  let pb := abs (p - b) in
  let pc := abs (p - c) in
  if (pa <=? pb) && (pa <=? pc) then a
  else if pb <=? pc then b
  else c.

(** One iteration of the row loop of [applyPNGPredictor]; [out] is the
    buffer [result]. *)
Definition png_row (data : list Z) (bytesPerPixel rowLength rowStride : Z)
    (row : Z) (out : list Z) : result (list Z) :=
  predictor ← index_at data (row * rowStride);
  rowData ← slice_of data (row * rowStride + 1) ((row + 1) * rowStride);
  resultRow ← window_of out (row * rowLength) ((row + 1) * rowLength);
  if predictor =? 0 then
    Ok (w_copy resultRow out rowData)
  else if predictor =? 1 then
    for_loop (len rowData) (fun i out =>
      if i <? bytesPerPixel then
        x ← index_at rowData i;
        w_set resultRow out i x
      else
        x ← index_at rowData i;
        left ← w_get resultRow out (i - bytesPerPixel);
        w_set resultRow out i (wrap8 (x + left))) out
  else if predictor =? 2 then
    if row =? 0 then
      Ok (w_copy resultRow out rowData)
    else
      prevRow ← window_of out ((row - 1) * rowLength) (row * rowLength);
      for_loop (len rowData) (fun i out =>
        x ← index_at rowData i;
        up ← w_get prevRow out i;
        w_set resultRow out i (wrap8 (x + up))) out
  else if predictor =? 3 then
    for_loop (len rowData) (fun i out =>
      left ← (if bytesPerPixel <=? i
              then w_get resultRow out (i - bytesPerPixel) else Ok 0);
      up ← (if 0 <? row
            then index_at out ((row - 1) * rowLength + i) else Ok 0);
      x ← index_at rowData i;
      w_set resultRow out i (wrap8 (x + wrap8 (left + up) / 2))) out
  else if predictor =? 4 then
    for_loop (len rowData) (fun i out =>
      left ← (if bytesPerPixel <=? i
              then w_get resultRow out (i - bytesPerPixel) else Ok 0);
      up ← (if 0 <? row
            then index_at out ((row - 1) * rowLength + i) else Ok 0);
      upLeft ← (if (0 <? row) && (bytesPerPixel <=? i)
                then index_at out ((row - 1) * rowLength + i - bytesPerPixel)
                else Ok 0);
      x ← index_at rowData i;
      w_set resultRow out i (wrap8 (x + paethPredictor left up upLeft))) out
  else
    Ok (w_copy resultRow out rowData).

Definition applyPNGPredictor (data : list Z)
    (columns bytesPerPixel rowLength : Z) : result (list Z) :=
  let rowStride := wrap_int (rowLength + 1) in
  if rowStride =? 0 then Panic "integer divide by zero"
  else
    let rows := Z.quot (len data) rowStride in
    if (rows =? 0) || negb (Z.rem (len data) rowStride =? 0) then
      Err "invalid data size for PNG predictor"
    else
      let size := wrap_int (rows * rowLength) in
      if size <? 0 then Panic "makeslice: len out of range"
      else
        for_loop rows (png_row data bytesPerPixel rowLength rowStride)
          (repeat 0 (Z.to_nat size)).

Definition tiff_row (data : list Z) (colors rowLength : Z)
    (row : Z) (out : list Z) : result (list Z) :=
  rowData ← slice_of data (row * rowLength) ((row + 1) * rowLength);
  resultRow ← window_of out (row * rowLength) ((row + 1) * rowLength);
  out ← for_loop colors (fun i out =>
           x ← index_at rowData i;
           w_set resultRow out i x) out;
  for_loop_from colors (Z.to_nat (len rowData - colors)) (fun i out =>
    x ← index_at rowData i;
    left ← w_get resultRow out (i - colors);
    w_set resultRow out i (wrap8 (x + left))) out.

Definition applyTIFFPredictor (data : list Z)
    (columns colors bitsPerComponent rowLength : Z) : result (list Z) :=
  if negb (bitsPerComponent =? 8) then Ok data
  else if rowLength =? 0 then Panic "integer divide by zero"
  else
    let rows := Z.quot (len data) rowLength in
    let size := wrap_int (rows * rowLength) in
    if size <? 0 then Panic "makeslice: len out of range"
    else
      for_loop rows (tiff_row data colors rowLength)
        (repeat 0 (Z.to_nat size)).

(** [decodeParms[key]] read as an integer, [default] when absent. *)
Definition int_parm (decodeParms : gmap string PDFValue) (key : string)
    (default : Z) : result Z :=
  match decodeParms !! key with
  | Some v =>
      s ← as_string v;
      match Atoi s with
      | Ok n => Ok n
      | Err e => Err ("invalid " +:+ key +:+ " value: " +:+ e)
      | Panic m => Panic m
      end
  | None => Ok default
  end.

Definition applyPredictor (data : list Z) (predictor : Z)
    (decodeParms : gmap string PDFValue) : result (list Z) :=
  columns ← int_parm decodeParms "Columns" 1;
  colors ← int_parm decodeParms "Colors" 1;
  bitsPerComponent ← int_parm decodeParms "BitsPerComponent" 8;
  let bytesPerPixel :=
    Z.quot (wrap_int (wrap_int (colors * bitsPerComponent) + 7)) 8 in
  let rowLength :=
    Z.quot (wrap_int (wrap_int (wrap_int (columns * colors)
                                * bitsPerComponent) + 7)) 8 in
  if (10 <=? predictor) && (predictor <=? 15) then
    applyPNGPredictor data columns bytesPerPixel rowLength
  else if predictor =? 2 then
    applyTIFFPredictor data columns colors bitsPerComponent rowLength
  else Ok data.

(** ** internal/content: filters *)

(** The loop of [decodeRunLength]; [input] is [input[i:]]. *)
Equations? decodeLoop (input : list Z) (output : list Z)
    : result (list Z) by wf (length input) lt :=
  decodeLoop [] output := Ok output;
  decodeLoop (n :: rest) output :=
    if n =? 128 then Ok output
    else if n <? 128 then
      let copyLength := n + 1 in
      if len rest <? copyLength then
        Err "run length decode error: not enough data for literal copy"
      else
        decodeLoop (skipn (Z.to_nat copyLength) rest)
          (output ++ firstn (Z.to_nat copyLength) rest)
    else
      let repeatLength := 257 - n in
      if len rest <=? 0 then
        Err "run length decode error: not enough data for repeat"
      else
        decodeLoop (skipn 1 rest)
          (output ++ repeat (nth 0 rest 0) (Z.to_nat repeatLength)).
Proof.
  all: rewrite length_skipn; clear; lia.
Qed.

Definition decodeRunLength (input : list Z) : result (list Z) :=
  decodeLoop input [].

Section Filters.
(** [io.ReadAll] over [zlib.NewReader] and over [ascii85.NewDecoder]:
    the decoded bytes, or the error of the library, already wrapped in
    the message of [applySingleFilter]. *)
Variable zlib_inflate : list Z -> result (list Z).
Variable ascii85_decode : list Z -> result (list Z).
(** [utils.ParseDictionary] on the bytes between [<<] and [>>]. *)
Variable ParseDictionary : string -> gmap string PDFValue.

Definition applySingleFilter (stream : list Z) (filterType : string)
    (decodeParms : gmap string PDFValue) : result (list Z) :=
  if String.eqb filterType "/FlatDecode" then
    decompressed ← zlib_inflate stream;
    match decodeParms !! "Predictor" with
    | Some predictorStr =>
        s ← as_string predictorStr;
        let predictor := AtoiValue s in
        if 1 <? predictor then
          applyPredictor decompressed predictor decodeParms
        else Ok decompressed
    | None => Ok decompressed
    end
  else if String.eqb filterType "/ASCII85Decode" then
    ascii85_decode stream
  else if String.eqb filterType "/LZWDecode" then
    Err "LZW decompression not implemented"
  else if String.eqb filterType "/RunLengthDecode" then
    decodeRunLength stream
  else if String.eqb filterType "/DCTDecode" then
    Ok stream
  else if String.eqb filterType "/JPXDecode" then
    Ok stream
  else if String.eqb filterType "/CCITTFaxDecode" then
    Err "CCITT fax decompression not implemented"
  else if String.eqb filterType "/JBIG2Decode" then
    Err "JBIG2 decompression not implemented"
  else
    Err ("unsupported filter type: " +:+ filterType).

(** [s[2 : len(s)-2]] of a string. *)
Definition strip2 (s : string) : result string :=
  let n := Z.of_nat (String.length s) in
  if 2 <=? n - 2 then
    Ok (str (firstn (Z.to_nat (n - 4)) (skipn 2 (chars s))))
  else Panic "slice bounds out of range".

(** The decode parameters of filter [i] of a filter array. *)
Definition filterParmsAt (decodeParms : gmap string PDFValue) (i : nat)
    : result (gmap string PDFValue) :=
  match decodeParms !! "Array" with
  | Some parmsArray =>
      parmsArrayStr ← as_string parmsArray;
      if HasPrefix parmsArrayStr "[" then
        match Utils.ParseArray parmsArrayStr !! i with
        | Some item =>
            if HasPrefix item "<<" then
              parmBytes ← strip2 item;
              Ok (ParseDictionary parmBytes)
            else Ok ∅
        | None => Ok ∅
        end
      else Ok ∅
  | None => Ok ∅
  end.

(** [for i := n - 1; i >= 0; i--] over the filter array. *)
Fixpoint filterLoop (filterArray : list string)
    (decodeParms : gmap string PDFValue) (n : nat) (acc : list Z)
    : result (list Z) :=
  match n with
  | O => Ok acc
  | Datatypes.S i =>
      filterParms ← filterParmsAt decodeParms i;
      match filterArray !! i with
      | None => Panic "index out of range"
      | Some name =>
          match applySingleFilter acc name filterParms with
          | Ok r => filterLoop filterArray decodeParms i r
          | Err e => Err ("filter " +:+ name +:+ " error: " +:+ e)
          | Panic m => Panic m
          end
      end
  end.

Definition DecompressStream (stream : list Z) (filterSpec : string)
    (decodeParms : gmap string PDFValue) : result (list Z) :=
  if HasPrefix filterSpec "[" && HasSuffix filterSpec "]" then
    let filterArray := Utils.ParseArray filterSpec in
    filterLoop filterArray decodeParms (length filterArray) stream
  else
    applySingleFilter stream filterSpec decodeParms.

End Filters.

(** *** Predictor and filter tables *)

Definition IsPNGPredictor (predictor : Z) : bool :=
  (10 <=? predictor) && (predictor <=? 15).

Definition IsTIFFPredictor (predictor : Z) : bool := predictor =? 2.

Definition GetPredictorName (predictor : Z) : string :=
  if predictor =? 1 then "No Prediction"
  else if predictor =? 2 then "TIFF Predictor"
  else if (10 <=? predictor) && (predictor <=? 15) then "PNG Predictor"
  else "Unknown Predictor".

Definition SupportedPredictors : list Z := [1; 2; 10; 11; 12; 13; 14; 15].

Definition IsSupported (filterType : string) : bool :=
  String.eqb filterType "/FlatDecode"
  || String.eqb filterType "/ASCII85Decode"
  || String.eqb filterType "/RunLengthDecode"
  || String.eqb filterType "/DCTDecode"
  || String.eqb filterType "/JPXDecode".

Definition GetSupportedFilters : list string :=
  ["/FlatDecode"; "/ASCII85Decode"; "/RunLengthDecode"; "/DCTDecode";
   "/JPXDecode"].

(** [counts[filter]++]. *)
Definition increment (counts : gmap string Z) (filter : string)
    : gmap string Z :=
  <[filter := default 0 (counts !! filter) + 1]> counts.

Definition GetFilterCounts (filterSpecs : list string) : gmap string Z :=
  fold_left (fun counts spec =>
    if HasPrefix spec "[" && HasSuffix spec "]" then
      fold_left increment (Utils.ParseArray spec) counts
    else increment counts spec) filterSpecs ∅.

End Content.

(** ** The order of a filter chain

    [applyChain] applies a list of numbered filters from its head to its
    tail, each to the result of the one before; the number of a filter
    selects its decode parameters and its name is added to an error. *)

Definition numbered (names : list string) : list (nat * string) :=
  zip (seq 0 (length names)) names.

Fixpoint applyChain (zlib_inflate ascii85_decode : list Z -> result (list Z))
    (ParseDictionary : string -> gmap string PDFValue)
    (decodeParms : gmap string PDFValue)
    (filters : list (nat * string)) (acc : list Z) : result (list Z) :=
  match filters with
  | [] => Ok acc
  | (i, name) :: rest =>
      filterParms ← Content.filterParmsAt ParseDictionary decodeParms i;
      match Content.applySingleFilter zlib_inflate ascii85_decode
              acc name filterParms with
      | Ok r => applyChain zlib_inflate ascii85_decode ParseDictionary
                  decodeParms rest r
      | Err e => Err ("filter " +:+ name +:+ " error: " +:+ e)
      | Panic m => Panic m
      end
  end.

(** ** internal/document *)

Module Document.
Import GoString.

Record PDFObject : Type := {
  ObjectNumber : Z;
  Generation : Z;
  Content : string;
  Dictionary : gmap string PDFValue;
  Stream : list Z;
  IsStream : bool
}.

(** [Width], [Height] (floats), [ResourcesDict] and [TextPositions] of
    the Go struct play no part in the content, text and chunk fields and
    are not embedded. *)
Record PDFPage : Type := {
  PageNumber : Z;
  Contents : list Z;
  Text : list Z
}.

Record PDFFont : Type := {
  Name : string;
  Subtype : string;
  Encoding : string;
  ToUnicode : list Z;
  CodeToUnicode : gmap Z Z
}.

Record PDFDocument : Type := {
  Objects : gmap Z PDFObject;
  Pages : list PDFPage;
  TextChunks : list (list Z);
  Fonts : gmap string PDFFont;
  RootCatalog : Z
}.

(** *** xref.go: findLastXRefOffset *)

(** [startxref\s*(\d+)] tried at the start of [s]: the digits of the
    group. *)
Definition match_startxref_here (s : list ascii) : option (list ascii) :=
  if has_prefix (chars "startxref") s then
    let '(_, r1) := span is_space (skipn 9 s) in
    let '(d, _) := span is_digit r1 in
    match d with
    | [] => None
    | _ :: _ => Some d
    end
  else None.

(** [startxrefPattern.FindSubmatch]: the leftmost match. *)
Fixpoint find_startxref (s : list ascii) : option (list ascii) :=
  match match_startxref_here s with
  | Some d => Some d
  | None => match s with
            | [] => None
            | _ :: t => find_startxref t
            end
  end.

(** The bytes [file.Read] delivers after [file.Seek(fileSize - bufSize)]. *)
Definition trailing_window (file : string) (fileSize : Z) : list ascii :=
  let bufSize := if fileSize <? 1024 then fileSize else 1024 in
  firstn (Z.to_nat bufSize) (skipn (Z.to_nat (fileSize - bufSize)) (chars file)).

Definition findLastXRefOffset (file : string) (fileSize : Z) : result Z :=
  let bufSize := if fileSize <? 1024 then fileSize else 1024 in
  if bufSize <? 0 then Panic "makeslice: len out of range"
  else
    let buffer := trailing_window file fileSize in
    if (0 <? bufSize) && (len buffer =? 0) then
      Err "failed to read from end of file: EOF"
    else
      match find_startxref buffer with
      | None => Err "startxref not found in last bytes"
      | Some d =>
          match parse_digits d with
          | Ok offset => Ok offset
          | Err e => Err ("invalid startxref offset: " +:+ e)
          | Panic m => Panic m
          end
      end.

(** *** objects.go: loadObjects *)

(** [strings.SplitN(line, "obj", 2)[1]] for a line that contains ["obj"]. *)
Definition after_obj (line : string) : string :=
  match index_of (chars "obj") (chars line) with
  | Some i => str (skipn (i + 3) (chars line))
  | None => ""
  end.

(** The [scanner.Scan] loop over the lines that follow the object's
    offset; [contentBuffer] accumulates the body. *)
Fixpoint scanObject (lines : list string) (inObject : bool)
    (contentBuffer : string) : string :=
  match lines with
  | [] => contentBuffer
  | line :: rest =>
      if negb inObject then
        if Contains line " obj" then
          scanObject rest true (contentBuffer +:+ after_obj line)
        else scanObject rest false contentBuffer
      else
        let contentBuffer := contentBuffer +:+ line +:+ String "010" "" in
        if Contains line "endobj" then contentBuffer
        else scanObject rest true contentBuffer
  end.

(** [contentBytes] after the ["endobj"] trim. *)
Definition objectBody (lines : list string) : string :=
  let contentBytes := scanObject lines false "" in
  match index_of (chars "endobj") (chars contentBytes) with
  | Some idx => str (firstn idx (chars contentBytes))
  | None => contentBytes
  end.

(** [contentBytes[i]] with Go's bounds check. *)
Definition byte_at (contentBytes : string) (i : Z) : result ascii :=
  if (0 <=? i) && (i <? len (chars contentBytes)) then
    match chars contentBytes !! Z.to_nat i with
    | Some c => Ok c
    | None => Panic "index out of range"
    end
  else Panic "index out of range".

(** The stream-boundary detection of [loadObjects]: the raw stream bytes
    [contentBytes[streamStart:streamEnd]] when a stream is found. *)
Definition detectStream (contentBytes : string) : result (option string) :=
  if Contains contentBytes "stream" && Contains contentBytes "endstream" then
    let streamStart := Index contentBytes "stream" + 6 in
    c0 ← byte_at contentBytes streamStart;
    streamStart ←
      (if Ascii.eqb c0 "013" then
         c1 ← byte_at contentBytes (streamStart + 1);
         if Ascii.eqb c1 "010" then Ok (streamStart + 2)
         else Ok streamStart
       else if Ascii.eqb c0 "010" then Ok (streamStart + 1)
       else Ok streamStart);
    let streamEnd := Index contentBytes "endstream" in
    if streamStart <? streamEnd then
      Ok (Some (str (firstn (Z.to_nat (streamEnd - streamStart))
                       (skipn (Z.to_nat streamStart) (chars contentBytes)))))
    else Ok None
  else Ok None.

(** *** pages.go: page contents *)

(** The loop over [contentRefs] that fills [allContents]. *)
Definition appendContent (doc : PDFDocument) (allContents : list Z)
    (contentRef : string) : list Z :=
  match Utils.ExtractReference contentRef with
  | Ok contentObjNum =>
      match Objects doc !! contentObjNum with
      | Some contentObj =>
          if IsStream contentObj then
            allContents ++ Stream contentObj ++ [10]
          else allContents
      | None => allContents
      end
  | _ => allContents
  end.

(** The "Get content stream" block of [processPageTree]: the value stored
    in [page.Contents]. *)
Definition pageContents (doc : PDFDocument) (obj : PDFObject) : list Z :=
  match Dictionary obj !! "Contents" with
  | Some (VString contents) =>
      if HasPrefix contents "[" then
        let contentRefs := Utils.ParseArray contents in
        fold_left (appendContent doc) contentRefs []
      else
        match Utils.ExtractReference contents with
        | Ok contentObjNum =>
            match Objects doc !! contentObjNum with
            | Some contentObj =>
                if IsStream contentObj then Stream contentObj else []
            | None => []
            end
        | _ => []
        end
  | _ => []
  end.

(** The "Get page dimensions" block of [processPageTree]: the type
    assertion [mediaBoxRef.(string)] panics on a nested dictionary;
    [ParseArray] and [ParseFloat] do not panic, and the errors of
    [ParseFloat] are only logged.  The width and the height of the page
    are floating-point values that [PDFPage] does not keep here. *)
Definition mediaBoxBlock (obj : PDFObject) : result unit :=
  match Dictionary obj !! "MediaBox" with
  | Some mediaBoxRef => as_string mediaBoxRef ;; Ok tt
  | None => Ok tt
  end.

(** The "Get resources" block of [processPageTree]: for an inline
    dictionary the slice [[]byte(res)[2 : len(res)-2]] panics when [res]
    has fewer than 4 bytes; the errors of [ParseDictionary] and of
    [ExtractReference] are only logged.  The resource dictionary of the
    page is not kept here. *)
Definition resourcesBlock (obj : PDFObject) : result unit :=
  match Dictionary obj !! "Resources" with
  | Some (VString res) =>
      if HasPrefix res "<<" then Content.strip2 res ;; Ok tt else Ok tt
  | _ => Ok tt
  end.

Definition addPage (doc : PDFDocument) (page : PDFPage) : PDFDocument :=
  {| Objects := Objects doc;
     Pages := Pages doc ++ [page];
     TextChunks := TextChunks doc;
     Fonts := Fonts doc;
     RootCatalog := RootCatalog doc |}.

(** [processPageTree]; [fuel] bounds the depth of the recursion through
    [/Kids], which Go leaves to the call stack. *)
Fixpoint processPageTree (fuel : nat) (doc : PDFDocument)
    (objNum pageCounter : Z) : result (PDFDocument * Z) :=
  match fuel with
  | O => Panic "stack overflow"
  | Datatypes.S fuel =>
      match Objects doc !! objNum with
      | None => Ok (doc, pageCounter)
      | Some obj =>
          match Dictionary obj !! "Type" with
          | Some (VString nodeType) =>
              if String.eqb nodeType "/Pages" then
                match Dictionary obj !! "Kids" with
                | Some kidsRef =>
                    kids ← as_string kidsRef;
                    fold_left (fun acc kidRef =>
                      '(doc, pageCounter) ← acc;
                      match Utils.ExtractReference kidRef with
                      | Ok kidObjNum =>
                          processPageTree fuel doc kidObjNum pageCounter
                      | _ => Ok (doc, pageCounter)
                      end) (Utils.ParseArray kids) (Ok (doc, pageCounter))
                | None => Ok (doc, pageCounter)
                end
              else if String.eqb nodeType "/Page" then
                mediaBoxBlock obj ;;
                resourcesBlock obj ;;
                let page := {| PageNumber := pageCounter;
                               Contents := pageContents doc obj;
                               Text := [] |} in
                Ok (addPage doc page, pageCounter + 1)
              else Ok (doc, pageCounter)
          | _ => Ok (doc, pageCounter)
          end
      end
  end.

(** *** pages.go: text, chunks, fonts *)

Definition processText (doc : PDFDocument) : PDFDocument :=
  {| Objects := Objects doc;
     Pages := map (fun page =>
                if 0 <? len (Contents page) then
                  {| PageNumber := PageNumber page;
                     Contents := Contents page;
                     Text := Contents page |}
                else page) (Pages doc);
     TextChunks := TextChunks doc;
     Fonts := Fonts doc;
     RootCatalog := RootCatalog doc |}.

Definition newline : Z := 10.

(** [strings.Split(text, "\n")]. *)
Fixpoint split_lines (text : list Z) : list (list Z) :=
  match text with
  | [] => [[]]
  | c :: t =>
      if c =? newline then [] :: split_lines t
      else match split_lines t with
           | l :: ls => (c :: l) :: ls
           | [] => [[c]]
           end
  end.

Definition allText (pages : list PDFPage) : list Z :=
  flat_map (fun page => Text page ++ [newline]) pages.

Definition maxChunkSize : Z := 1000.

(** One iteration of the loop over [lines]: the state is [currentChunk]
    and the chunks appended so far. *)
Definition chunkStep (st : list Z * list (list Z)) (line : list Z)
    : list Z * list (list Z) :=
  let '(currentChunk, chunks) := st in
  let '(currentChunk, chunks) :=
    if maxChunkSize <? len currentChunk + len line + 1 then
      if 0 <? len currentChunk then ([], chunks ++ [currentChunk])
      else (currentChunk, chunks)
    else (currentChunk, chunks) in
  let currentChunk :=
    if 0 <? len currentChunk then currentChunk ++ [newline]
    else currentChunk in
  (currentChunk ++ line, chunks).

Definition chunkLines (lines : list (list Z)) (chunks : list (list Z))
    : list (list Z) :=
  let '(currentChunk, chunks) := fold_left chunkStep lines ([], chunks) in
  if 0 <? len currentChunk then chunks ++ [currentChunk] else chunks.

Definition processTextChunks (doc : PDFDocument) : PDFDocument :=
  {| Objects := Objects doc;
     Pages := Pages doc;
     TextChunks :=
       chunkLines (split_lines (allText (Pages doc))) (TextChunks doc);
     Fonts := Fonts doc;
     RootCatalog := RootCatalog doc |}.

Definition processFonts (doc : PDFDocument) : PDFDocument :=
  {| Objects := Objects doc;
     Pages := Pages doc;
     TextChunks := TextChunks doc;
     Fonts := <["/DefaultFont" :=
                  {| Name := "DefaultFont"; Subtype := ""; Encoding := "";
                     ToUnicode := []; CodeToUnicode := ∅ |}]> (Fonts doc);
     RootCatalog := RootCatalog doc |}.

Definition handleMissingFonts (doc : PDFDocument) : PDFDocument := doc.

(** The steps of [ParsePDF] that follow [processPages]. *)
Definition finishDocument (doc : PDFDocument) : PDFDocument :=
  processTextChunks (processText (handleMissingFonts (processFonts doc))).

(** *** Page access *)

Definition GetPageCount (doc : PDFDocument) : Z := len (Pages doc).

Definition GetPage (doc : PDFDocument) (pageNum : Z) : option PDFPage :=
  if (pageNum <? 1) || (len (Pages doc) <? pageNum) then None
  else Pages doc !! Z.to_nat (pageNum - 1).

Definition GetPageText (doc : PDFDocument) (pageNum : Z) : result (list Z) :=
  if (pageNum <? 1) || (len (Pages doc) <? pageNum) then
    Err "page number out of range"
  else
    match Pages doc !! Z.to_nat (pageNum - 1) with
    | Some page => Ok (Text page)
    | None => Panic "index out of range"
    end.

(** [doc.GetText]. *)
Definition GetText (doc : PDFDocument) : list Z :=
  flat_map (fun page => Text page ++ [newline]) (Pages doc).

(** *** xref.go: entries of the cross-reference table *)

Record PDFXRefEntry : Type := {
  Offset : Z;
  XRefGeneration : Z;
  InUse : bool
}.

(** [xrefEntryRegex = ^(\d{10}) (\d{5}) ([nf])$]: the three groups. *)
Definition xrefEntryMatch (entry : string)
    : option (list ascii * list ascii * ascii) :=
  let cs := chars entry in
  let d1 := firstn 10 cs in
  match skipn 10 cs with
  | sp1 :: r2 =>
      let d2 := firstn 5 r2 in
      match skipn 5 r2 with
      | [sp2; k] =>
          if (Nat.eqb (length d1) 10) && forallb is_digit d1
             && Ascii.eqb sp1 " "
             && (Nat.eqb (length d2) 5) && forallb is_digit d2
             && Ascii.eqb sp2 " "
             && (Ascii.eqb k "n" || Ascii.eqb k "f")
          then Some (d1, d2, k)
          else None
      | _ => None
      end
  | [] => None
  end.

(** The body of the entry loop of [parseXRef]: the entry stored for a
    line, none when the line is skipped with a warning. *)
Definition parseXRefEntry (entry : string) : option PDFXRefEntry :=
  match xrefEntryMatch entry with
  | Some (d1, d2, k) =>
      match parse_digits d1, parse_digits d2 with
      | Ok offset, Ok gen =>
          Some {| Offset := offset;
                  XRefGeneration := gen;
                  InUse := Ascii.eqb k "n" |}
      | _, _ => None
      end
  | None => None
  end.

(** *** document.go: identifyPDFVersion *)

(** The version string stored in [doc.Version]; [file.Read] fills the
    8-byte [header] with the bytes the file has. *)
Definition identifyPDFVersion (file : string) : result string :=
  let read := firstn 8 (chars file) in
  if len read =? 0 then Err "failed to read header: EOF"
  else
    let header := read ++ repeat zero (8 - length read) in
    if has_prefix (chars "%PDF-") header then Ok (str (skipn 5 header))
    else Err "not a PDF file".

End Document.

(** ** internal/text: fonts *)

Module Text.

(** [for i := lo; i < lo + n; i++ { m[i] = rune(i) }]. *)
Definition identityRange (lo : Z) (n : nat) (m : gmap Z Z) : gmap Z Z :=
  fold_left (fun m i => <[i := i]> m) (seqZ lo (Z.of_nat n)) m.

(** [createDefaultFont] on the processor's font table [fp.Fonts]. *)
Definition createDefaultFont (fonts : gmap string Document.PDFFont)
    : gmap string Document.PDFFont :=
  let codeToUnicode := identityRange 128 128 (identityRange 0 128 ∅) in
  <["/DefaultFont" :=
      {| Document.Name := "DefaultFont";
         Document.Subtype := "";
         Document.Encoding := "";
         Document.ToUnicode := [];
         Document.CodeToUnicode := codeToUnicode |}]> fonts.

(** The two closing statements of [FontProcessor.ProcessFonts]. *)
Definition ensureDefaultFont (fonts : gmap string Document.PDFFont)
    : gmap string Document.PDFFont :=
  let fonts :=
    if Z.of_nat (size fonts) =? 0 then createDefaultFont fonts else fonts in
  match fonts !! "/DefaultFont" with
  | Some _ => fonts
  | None => createDefaultFont fonts
  end.

(** The zero value of [PDFFont]. *)
Definition zeroFont : Document.PDFFont :=
  {| Document.Name := "";
     Document.Subtype := "";
     Document.Encoding := "";
     Document.ToUnicode := [];
     Document.CodeToUnicode := ∅ |}.

(** The font the extractor passes to [decodeText] for a [Tj] or [TJ]
    string under the current font name. *)
Definition currentFont (fonts : gmap string Document.PDFFont)
    (fontName : string) : Document.PDFFont :=
  match fonts !! ("/" +:+ fontName) with
  | Some font => font
  | None =>
      match fonts !! "/DefaultFont" with
      | Some font => font
      | None => zeroFont
      end
  end.

(** The "regular character" branch of [decodeText]. *)
Definition decodeByte (font : Document.PDFFont) (b : Z) : Z :=
  match Document.CodeToUnicode font !! b with
  | Some char => char
  | None => b
  end.

(** *** fonts.go: encodings *)

Definition winAnsiOverrides : list (Z * Z) :=
  [(128, 8364); (130, 8218); (131, 402); (132, 8222); (133, 8230);
   (134, 8224); (135, 8225); (136, 710); (137, 8240); (138, 352);
   (139, 8249); (140, 338); (142, 381); (145, 8216); (146, 8217);
   (147, 8220); (148, 8221); (149, 8226); (150, 8211); (151, 8212);
   (152, 732); (153, 8482); (154, 353); (155, 8250); (156, 339);
   (158, 382); (159, 376)].

Definition macRomanHighMap : list (Z * Z) :=
  [(128, 196); (129, 197); (130, 199); (131, 201); (132, 209); (133, 214);
   (134, 220); (135, 225); (136, 224); (137, 226); (138, 228); (139, 227);
   (140, 229); (141, 231); (142, 233); (143, 232); (144, 234); (145, 235);
   (146, 237); (147, 236); (148, 238); (149, 239); (150, 241); (151, 243);
   (152, 242); (153, 244); (154, 246); (155, 245); (156, 250); (157, 249);
   (158, 251); (159, 252); (160, 8224); (161, 176); (162, 162); (163, 163);
   (164, 167); (165, 8226); (166, 182); (167, 223); (168, 174); (169, 169);
   (170, 8482); (171, 180); (172, 168); (173, 8800); (174, 198);
   (175, 216); (176, 8734); (177, 177); (178, 8804); (179, 8805);
   (180, 165); (181, 181); (182, 8706); (183, 8721); (184, 8719);
   (185, 960); (186, 8747); (187, 170); (188, 186); (189, 937); (190, 230);
   (191, 248); (192, 191); (193, 161); (194, 172); (195, 8730); (196, 402);
   (197, 8776); (198, 8710); (199, 171); (200, 187); (201, 8230);
   (202, 160); (203, 192); (204, 195); (205, 213); (206, 338); (207, 339);
   (208, 8211); (209, 8212); (210, 8220); (211, 8221); (212, 8216);
   (213, 8217); (214, 247); (215, 9674); (216, 255); (217, 376);
   (218, 8260); (219, 8364); (220, 8249); (221, 8250); (222, 64257);
   (223, 64258); (224, 8225); (225, 183); (226, 8218); (227, 8222);
   (228, 8240); (229, 194); (230, 202); (231, 193); (232, 203); (233, 200);
   (234, 205); (235, 206); (236, 207); (237, 204); (238, 211); (239, 212);
   (240, 32); (241, 210); (242, 218); (243, 219); (244, 217); (245, 305);
   (246, 710); (247, 732); (248, 175); (249, 728); (250, 729); (251, 730);
   (252, 184); (253, 733); (254, 731); (255, 711)].

(** [for code, char := range table { m[code] = char }]; the keys of a
    table are distinct, so the order of the iteration does not matter. *)
Definition loadTable (table : list (Z * Z)) (m : gmap Z Z) : gmap Z Z :=
  fold_left (fun m entry => <[fst entry := snd entry]> m) table m.

(** The three loaders act on [font.CodeToUnicode]. *)
Definition loadWinAnsiEncoding (m : gmap Z Z) : gmap Z Z :=
  loadTable winAnsiOverrides (identityRange 0 256 m).

Definition loadMacRomanEncoding (m : gmap Z Z) : gmap Z Z :=
  loadTable macRomanHighMap (identityRange 0 128 m).

Definition loadIdentityEncoding (m : gmap Z Z) : gmap Z Z :=
  identityRange 0 128 m.

Definition GetDefaultFont : Document.PDFFont :=
  {| Document.Name := "DefaultFont";
     Document.Subtype := "";
     Document.Encoding := "";
     Document.ToUnicode := [];
     Document.CodeToUnicode := identityRange 0 256 ∅ |}.

(** *** extraction.go: decodeText *)

(** The code point [strings.Builder.WriteRune] encodes: the replacement
    character for a value that is not a Unicode scalar value. *)
Definition WriteRune (r : Z) : Z :=
  if ((0 <=? r) && (r <? 55296)) || ((57343 <? r) && (r <=? 1114111))
  then r else 65533.

Definition isOctal (b : Z) : bool := (48 <=? b) && (b <=? 55).

(** The rune an escape letter stands for. *)
Definition escape_rune (e : Z) : option Z :=
  if e =? 92 then Some 92
  else if e =? 40 then Some 40
  else if e =? 41 then Some 41
  else if e =? 110 then Some 10
  else if e =? 114 then Some 13
  else if e =? 116 then Some 9
  else if e =? 98 then Some 8
  else if e =? 102 then Some 12
  else None.

(** A code mapped through the font, itself when the font has no entry. *)
Definition mapCode (font : Document.PDFFont) (code : Z) : Z :=
  match Document.CodeToUnicode font !! code with
  | Some char => char
  | None => code
  end.

(** The loop of [decodeText]; [textBytes] is [textBytes[i:]] and the
    result is the list of the runes written, whose UTF-8 encoding is the
    string returned. *)
Equations? decodeTextLoop (font : Document.PDFFont) (textBytes : list Z)
    (out : list Z) : list Z by wf (length textBytes) lt :=
  decodeTextLoop font [] out := out;
  decodeTextLoop font (c :: rest) out :=
    if (c =? 92) && (0 <? len rest) then
      let e := nth 0 rest 0 in
      match escape_rune e with
      | Some r => decodeTextLoop font (skipn 1 rest) (out ++ [WriteRune r])
      | None =>
          if isOctal e then
            if (2 <? len rest) && isOctal (nth 1 rest 0)
               && isOctal (nth 2 rest 0) then
              let val := 64 * (e - 48) + 8 * (nth 1 rest 0 - 48)
                         + (nth 2 rest 0 - 48) in
              decodeTextLoop font (skipn 4 rest)
                (out ++ [WriteRune (mapCode font val)])
            else decodeTextLoop font (skipn 1 rest) (out ++ [WriteRune e])
          else decodeTextLoop font (skipn 1 rest) (out ++ [WriteRune e])
      end
    else decodeTextLoop font rest (out ++ [WriteRune (mapCode font c)]).
Proof.
  all: try (rewrite length_skipn; clear; lia); clear; lia.
Qed.

Definition decodeText (textBytes : list Z) (font : Document.PDFFont)
    : list Z :=
  decodeTextLoop font textBytes [].

End Text.

(** ** A reference run-length encoder

    The encoder follows the format of the decoder's table: a run of [n]
    equal bytes, [2 <= n <= 128], is written as the length byte [257 - n]
    and the byte; [n] literal bytes, [1 <= n <= 128], are written as the
    length byte [n - 1] and the bytes; the byte [128] ends the data. *)

Module RunLengthRef.

Inductive packet : Type :=
| Run (n : nat) (b : Z)
| Lit (bytes : list Z).

(** Maximal groups of equal bytes, at most 128 long. *)
Fixpoint group (input : list Z) : list (Z * nat) :=
  match input with
  | [] => []
  | b :: t =>
      match group t with
      | (b', n) :: rest =>
          if (b =? b') && (Nat.ltb n 128) then (b, Datatypes.S n) :: rest
          else (b, 1%nat) :: (b', n) :: rest
      | [] => [(b, 1%nat)]
      end
  end.

Definition packet_of (g : Z * nat) : packet :=
  let '(b, n) := g in
  if Nat.leb n 1 then Lit (repeat b n) else Run n b.

(** Adjacent literal packets are joined while they fit in 128 bytes. *)
Fixpoint merge_literals (ps : list packet) : list packet :=
  match ps with
  | [] => []
  | Lit l1 :: rest =>
      match merge_literals rest with
      | Lit l2 :: rest' =>
          if Nat.leb (length l1 + length l2) 128
          then Lit (l1 ++ l2) :: rest'
          else Lit l1 :: Lit l2 :: rest'
      | r => Lit l1 :: r
      end
  | p :: rest => p :: merge_literals rest
  end.

Definition packets (input : list Z) : list packet :=
  merge_literals (map packet_of (group input)).

Definition write_packet (p : packet) : list Z :=
  match p with
  | Run n b => [257 - Z.of_nat n; b]
  | Lit l => (Z.of_nat (length l) - 1) :: l
  end.

Definition expand (p : packet) : list Z :=
  match p with
  | Run n b => repeat b n
  | Lit l => l
  end.

Definition well_formed (p : packet) : Prop :=
  match p with
  | Run n b => (2 <= n <= 128)%nat
  | Lit l => (1 <= length l <= 128)%nat
  end.

Definition encodeRunLength (input : list Z) : list Z :=
  flat_map write_packet (packets input) ++ [128].

End RunLengthRef.

(** ** Readings of the specification and sample inputs *)

(** The lines of a file, each ended by a newline. *)
Definition unlines (lines : list string) : string :=
  fold_right (fun line rest => line +:+ String "010" rest) "" lines.

(** The last match of [startxref\s*(\d+)] in a window: the reading of
    "the last occurrence of startxref followed by a decimal integer". *)
Fixpoint find_last_startxref (s : list ascii) : option (list ascii) :=
  match s with
  | [] => None
  | _ :: t =>
      match find_last_startxref t with
      | Some d => Some d
      | None => Document.match_startxref_here s
      end
  end.

(** A file ended by two cross-reference sections, as an incremental update
    leaves them. *)
Definition updated_file : string :=
  unlines ["%PDF-1.4"; "1 0 obj"; "<< /Type /Catalog >>"; "endobj";
           "xref"; "0 2"; "trailer"; "<< /Size 2 >>";
           "startxref"; "52"; "%%EOF";
           "xref"; "0 2"; "trailer"; "<< /Size 2 /Prev 52 >>";
           "startxref"; "121"; "%%EOF"].

(** An array item resolves to a stream when it holds a reference to a
    stream object of the document. *)
Definition resolves_to_stream (doc : Document.PDFDocument)
    (item : string) (stream : list Z) : Prop :=
  exists objNum obj,
    Utils.ExtractReference item = Ok objNum
    /\ Document.Objects doc !! objNum = Some obj
    /\ Document.IsStream obj = true
    /\ Document.Stream obj = stream.

(** The decoded streams joined with one newline between consecutive
    streams and none after the last: the reading of "a newline separator
    between streams". *)
Fixpoint join_streams (streams : list (list Z)) : list Z :=
  match streams with
  | [] => []
  | [s] => s
  | s :: rest => s ++ [Document.newline] ++ join_streams rest
  end.

Definition stream_object (n : Z) (stream : list Z) : Document.PDFObject :=
  {| Document.ObjectNumber := n;
     Document.Generation := 0;
     Document.Content := "";
     Document.Dictionary := ∅;
     Document.Stream := stream;
     Document.IsStream := true |}.

Definition page_object (n : Z) (contents : string) : Document.PDFObject :=
  {| Document.ObjectNumber := n;
     Document.Generation := 0;
     Document.Content := "";
     Document.Dictionary :=
       <["Type" := VString "/Page"]>
         (<["Contents" := VString contents]> ∅);
     Document.Stream := [];
     Document.IsStream := false |}.

(** Object 3 is a page, objects 4 and 5 are its content streams
    ["BT"] and ["ET"]. *)
Definition two_stream_document (contents : string) : Document.PDFDocument :=
  {| Document.Objects :=
       <[3 := page_object 3 contents]>
         (<[4 := stream_object 4 [66; 84]]>
            (<[5 := stream_object 5 [69; 84]]> ∅));
     Document.Pages := [];
     Document.TextChunks := [];
     Document.Fonts := ∅;
     Document.RootCatalog := 1 |}.

(** Each stream followed by one newline. *)
Definition terminate_streams (streams : list (list Z)) : list Z :=
  flat_map (fun s => s ++ [Document.newline]) streams.

(** The content bytes of the pages a page-tree walk has stored. *)
Definition stored_contents (r : result (Document.PDFDocument * Z))
    : list (list Z) :=
  match r with
  | Ok (doc, _) => map Document.Contents (Document.Pages doc)
  | _ => []
  end.















(** The rows of the sample are tagged Sub, Up, Average and Paeth. *)
Definition png_sample : list Z :=
  [1; 10; 20; 2; 1; 1; 3; 4; 6; 4; 250; 7].

(** The filter names of a list of filter specifications, an array giving
    its items. *)
Definition filterNames (filterSpecs : list string) : list string :=
  flat_map (fun spec =>
    if GoString.HasPrefix spec "[" && GoString.HasSuffix spec "]"
    then Utils.ParseArray spec else [spec]) filterSpecs.

(** A file of 1024 blanks and a final [startxref]. *)
Definition blank_tail_file : string :=
  GoString.str (repeat " "%char 1024) +:+ "startxref 9".

(** Object 2 is a page-tree node whose two kids are the page 3. *)
Definition kids_document : Document.PDFDocument :=
  {| Document.Objects :=
       <[2 := {| Document.ObjectNumber := 2;
                 Document.Generation := 0;
                 Document.Content := "";
                 Document.Dictionary :=
                   <["Type" := VString "/Pages"]>
                     (<["Kids" := VString "[[3 0 R] [3 0 R]]"]> ∅);
                 Document.Stream := [];
                 Document.IsStream := false |}]>
         (<[3 := page_object 3 "4 0 R"]>
            (<[4 := stream_object 4 [66; 84]]> ∅));
     Document.Pages := [];
     Document.TextChunks := [];
     Document.Fonts := ∅;
     Document.RootCatalog := 1 |}.

(** [kids_document] after the walk of its page tree: two pages, numbered
    1 and 2, with the content of object 4. *)
Definition kids_document_walked : Document.PDFDocument :=
  Document.addPage
    (Document.addPage kids_document
       {| Document.PageNumber := 1;
          Document.Contents := [66; 84];
          Document.Text := [] |})
    {| Document.PageNumber := 2;
       Document.Contents := [66; 84];
       Document.Text := [] |}.

(** What a walk of the page tree may change: it adds pages at the end of
    the page list, numbered from the page counter on, and leaves the rest
    of the document as it is. *)
Definition walk_extends (doc : Document.PDFDocument) (pageCounter : Z)
    (r : Document.PDFDocument * Z) : Prop :=
  let '(doc', pageCounter') := r in
  Document.Objects doc' = Document.Objects doc
  /\ Document.TextChunks doc' = Document.TextChunks doc
  /\ Document.Fonts doc' = Document.Fonts doc
  /\ Document.RootCatalog doc' = Document.RootCatalog doc
  /\ exists new,
       Document.Pages doc' = Document.Pages doc ++ new
       /\ map Document.PageNumber new = seqZ pageCounter (len new)
       /\ pageCounter' = pageCounter + len new.

(** A character that is none of the brackets [[ ] < >] and not a form
    feed: the characters of a flat array of numbers, names and
    references. *)
Definition plain_char (c : ascii) : bool :=
  negb (Ascii.eqb c "[" || Ascii.eqb c "]" || Ascii.eqb c "<"
        || Ascii.eqb c ">" || Ascii.eqb c "012").

Definition no_space (l : list ascii) : bool :=
  forallb (fun c => negb (GoString.is_space c)) l.

(** The two upper-case hexadecimal digits of each byte: the text of a
    hex string, between its angle brackets. *)
Definition hex_char (n : Z) : ascii :=
  if n <? 10 then Utils.char_of (48 + n) else Utils.char_of (55 + n).

Fixpoint hex_encode (l : list ascii) : list ascii :=
  match l with
  | [] => []
  | c :: t =>
      hex_char (GoString.byte_of c / 16)
      :: hex_char (GoString.byte_of c mod 16) :: hex_encode t
  end.

(** What [loadWinAnsiEncoding] and [loadMacRomanEncoding] give a font for
    a code of 0..255. *)
Definition encodings_cover (c : Z) : Prop :=
  is_Some (Text.loadWinAnsiEncoding ∅ !! c)
  /\ (c < 128 \/ 160 <= c -> Text.loadWinAnsiEncoding ∅ !! c = Some c)
  /\ is_Some (Text.loadMacRomanEncoding ∅ !! c)
  /\ (c < 128 -> Text.loadMacRomanEncoding ∅ !! c = Some c)
  /\ (c = 240 -> Text.loadMacRomanEncoding ∅ !! c = Some 32)
  /\ (is_Some (Text.loadIdentityEncoding ∅ !! c) <-> c < 128).

(** * Properties *)

(** ** Arrays and references *)

Example ParseArray_names :
  Utils.ParseArray "[/ASCII85Decode /FlatDecode]"
  = ["/ASCII85Decode"; "/FlatDecode"].
Proof. reflexivity. Qed.

(** The blanks of a reference are item separators like any other. *)
Example ParseArray_splits_references :
  Utils.ParseArray "[4 0 R 5 0 R]" = ["4"; "0"; "R"; "5"; "0"; "R"].
Proof. reflexivity. Qed.

Example ParseArray_keeps_nested :
  Utils.ParseArray "[[4 0 R] <</Columns 4>> /X]"
  = ["[4 0 R]"; "<</Columns 4>>"; "/X"].
Proof. reflexivity. Qed.

Example ExtractReference_reference : Utils.ExtractReference "12 0 R" = Ok 12.
Proof. reflexivity. Qed.

Example ExtractReference_token :
  Utils.ExtractReference "12" = Err "invalid reference format: 12".
Proof. reflexivity. Qed.

(** ** Run-length decoding *)

Section RunLength.
Import Content RunLengthRef.

Lemma decodeLoop_packet (p : packet) (rest out : list Z) :
  well_formed p ->
  decodeLoop (write_packet p ++ rest) out = decodeLoop rest (out ++ expand p).
Proof.
  destruct p as [n b | l]; simpl; intros Hwf.
  - rewrite decodeLoop_equation_2.
    destruct (Z.eqb_spec (257 - Z.of_nat n) 128); [lia |].
    destruct (Z.ltb_spec (257 - Z.of_nat n) 128); [lia |].
    unfold len; simpl length.
    destruct (Z.leb_spec (Z.of_nat (Datatypes.S (length rest))) 0); [lia |].
    simpl. do 2 f_equal. f_equal. lia.
  - rewrite decodeLoop_equation_2.
    destruct (Z.eqb_spec (Z.of_nat (length l) - 1) 128); [lia |].
    destruct (Z.ltb_spec (Z.of_nat (length l) - 1) 128); [| lia].
    cbv zeta. unfold len. rewrite length_app.
    destruct (Z.ltb_spec (Z.of_nat (length l + length rest))
                         (Z.of_nat (length l) - 1 + 1)); [lia |].
    replace (Z.to_nat (Z.of_nat (length l) - 1 + 1)) with (length l) by lia.
    rewrite skipn_app, skipn_all, Nat.sub_diag, firstn_app, firstn_all,
      Nat.sub_diag.
    simpl. now rewrite app_nil_r.
Qed.

Lemma decodeLoop_packets (ps : list packet) (out : list Z) :
  Forall well_formed ps ->
  decodeLoop (flat_map write_packet ps ++ [128]) out
  = Ok (out ++ concat (map expand ps)).
Proof.
  intros Hwf. revert out.
  induction Hwf as [| p ps Hp _ IH]; intros out; simpl.
  - rewrite decodeLoop_equation_2. simpl. now rewrite app_nil_r.
  - rewrite <- app_assoc, decodeLoop_packet by assumption.
    rewrite IH. now rewrite <- app_assoc.
Qed.

Lemma group_counts (input : list Z) :
  Forall (fun g => (1 <= snd g <= 128)%nat) (group input).
Proof.
  induction input as [| b t IH]; simpl; [constructor |].
  destruct (group t) as [| [b' n] rest].
  - apply Forall_cons_2; [simpl; lia | constructor].
  - inversion IH as [| ? ? Hn Hrest]; subst; simpl in Hn.
    destruct (b =? b'); simpl; [destruct (Nat.ltb_spec n 128) |];
      repeat apply Forall_cons_2; simpl; try assumption; lia.
Qed.

Lemma group_expand (input : list Z) :
  concat (map (fun g => repeat (fst g) (snd g)) (group input)) = input.
Proof.
  induction input as [| b t IH]; simpl; [reflexivity |].
  destruct (group t) as [| [b' n] rest]; simpl in *.
  - now rewrite <- IH.
  - destruct (Z.eqb_spec b b') as [-> | Hne]; simpl.
    + destruct (Nat.ltb_spec n 128); simpl; now rewrite IH.
    + now rewrite IH.
Qed.

Lemma packet_of_well_formed (g : Z * nat) :
  (1 <= snd g <= 128)%nat -> well_formed (packet_of g).
Proof.
  destruct g as [b n]; simpl; intros Hn.
  destruct (Nat.leb_spec n 1); simpl; [rewrite repeat_length |]; lia.
Qed.

Lemma packet_of_expand (g : Z * nat) :
  expand (packet_of g) = repeat (fst g) (snd g).
Proof.
  destruct g as [b n]; simpl. now destruct (Nat.leb n 1).
Qed.

Lemma merge_literals_well_formed (ps : list packet) :
  Forall well_formed ps -> Forall well_formed (merge_literals ps).
Proof.
  induction 1 as [| p ps Hp _ IH]; simpl; [constructor |].
  destruct p as [n b | l1]; [now constructor |].
  destruct (merge_literals ps) as [| [n b | l2] rest];
    try (now constructor).
  inversion IH as [| ? ? Hl2 Hrest]; subst.
  destruct (Nat.leb_spec (length l1 + length l2) 128).
  - constructor; [| assumption]. simpl in *. rewrite length_app. lia.
  - repeat apply Forall_cons_2; assumption.
Qed.

Lemma merge_literals_expand (ps : list packet) :
  concat (map expand (merge_literals ps)) = concat (map expand ps).
Proof.
  induction ps as [| p ps IH]; simpl; [reflexivity |].
  destruct p as [n b | l1]; simpl; [now rewrite IH |].
  rewrite <- IH.
  destruct (merge_literals ps) as [| [n b | l2] rest]; simpl;
    try reflexivity.
  destruct (Nat.leb (length l1 + length l2) 128); simpl;
    [now rewrite app_assoc | reflexivity].
Qed.

Lemma packets_well_formed (input : list Z) :
  Forall well_formed (packets input).
Proof.
  apply merge_literals_well_formed.
  induction (group_counts input) as [| g gs Hg _ IH]; simpl;
    constructor; auto using packet_of_well_formed.
Qed.

Lemma packets_expand (input : list Z) :
  concat (map expand (packets input)) = input.
Proof.
  unfold packets. rewrite merge_literals_expand, map_map.
  rewrite <- (group_expand input) at 2. f_equal.
  apply map_ext. intros g. apply packet_of_expand.
Qed.

Example encodeRunLength_sample :
  encodeRunLength [1; 1; 1; 2; 3; 4; 4] = [254; 1; 1; 2; 3; 255; 4; 128].
Proof. reflexivity. Qed.

Example decodeRunLength_sample :
  decodeRunLength [254; 1; 1; 2; 3; 255; 4; 128; 9] = Ok [1; 1; 1; 2; 3; 4; 4].
Proof. reflexivity. Qed.

Example decodeRunLength_truncated :
  decodeRunLength [5; 1; 2]
  = Err "run length decode error: not enough data for literal copy".
Proof. reflexivity. Qed.

(** C4: run-length decoding is a left inverse of the reference run-length
    encoder: for every byte buffer [B], decoding the encoding of [B]
    succeeds and yields exactly [B]. *)
Theorem decodeRunLength_encodeRunLength (B : list Z) :
  decodeRunLength (encodeRunLength B) = Ok B.
Proof.
  unfold decodeRunLength, encodeRunLength.
  rewrite decodeLoop_packets by apply packets_well_formed.
  now rewrite packets_expand.
Qed.

End RunLength.

(** ** Bounds checks and loops *)

Section Slices.

Lemma for_loop_from_inv {S : Type} (I : S -> Prop)
    (body : Z -> S -> result S) (n : nat) :
  forall (start : Z) (s : S),
    I s ->
    (forall i s, start <= i < start + Z.of_nat n -> I s ->
                 exists s', body i s = Ok s' /\ I s') ->
    exists s', for_loop_from start n body s = Ok s' /\ I s'.
Proof.
  induction n as [| n IH]; intros start s Hs Hbody; simpl.
  - eauto.
  - destruct (Hbody start s) as [s1 [-> Hs1]]; [lia | assumption |].
    simpl. apply IH; [assumption |].
    intros i s2 Hi. apply Hbody. lia.
Qed.

Lemma index_at_ok (l : list Z) (i : Z) :
  0 <= i < len l -> exists x, index_at l i = Ok x.
Proof.
  intros Hi. unfold index_at, len in *.
  destruct (Z.leb_spec 0 i); [| lia].
  destruct (Z.ltb_spec i (Z.of_nat (length l))); [| lia]. simpl.
  destruct (lookup_lt_is_Some_2 l (Z.to_nat i)) as [x ->]; [lia | eauto].
Qed.

Lemma slice_of_ok (l : list Z) (lo hi : Z) :
  0 <= lo <= hi -> hi <= len l ->
  exists s, slice_of l lo hi = Ok s /\ len s = hi - lo.
Proof.
  intros Hlo Hhi. unfold slice_of, len in *.
  destruct (Z.leb_spec 0 lo); [| lia].
  destruct (Z.leb_spec lo hi); [| lia].
  destruct (Z.leb_spec hi (Z.of_nat (length l))); [| lia]. simpl.
  eexists; split; [reflexivity |].
  rewrite length_firstn, length_skipn. lia.
Qed.

Lemma window_of_ok (buf : list Z) (lo hi : Z) :
  0 <= lo <= hi -> hi <= len buf ->
  window_of buf lo hi = Ok {| w_lo := lo; w_hi := hi |}.
Proof.
  intros Hlo Hhi. unfold window_of, len in *.
  destruct (Z.leb_spec 0 lo); [| lia].
  destruct (Z.leb_spec lo hi); [| lia].
  destruct (Z.leb_spec hi (Z.of_nat (length buf))); [| lia].
  reflexivity.
Qed.

Lemma w_get_ok (w : window) (buf : list Z) (k : Z) :
  0 <= w_lo w -> w_hi w <= len buf -> 0 <= k < w_len w ->
  exists x, w_get w buf k = Ok x.
Proof.
  intros Hlo Hhi Hk. unfold w_get, w_len in *.
  destruct (Z.leb_spec 0 k); [| lia].
  destruct (Z.ltb_spec k (w_hi w - w_lo w)); [| lia]. simpl.
  apply index_at_ok. lia.
Qed.

Lemma w_set_ok (w : window) (buf : list Z) (k x : Z) :
  0 <= w_lo w -> w_hi w <= len buf -> 0 <= k < w_len w ->
  exists buf', w_set w buf k x = Ok buf' /\ len buf' = len buf.
Proof.
  intros Hlo Hhi Hk. unfold w_set, w_len, len in *.
  destruct (Z.leb_spec 0 k); [| lia].
  destruct (Z.ltb_spec k (w_hi w - w_lo w)); [| lia]. simpl.
  destruct (Z.leb_spec 0 (w_lo w + k)); [| lia].
  destruct (Z.ltb_spec (w_lo w + k) (Z.of_nat (length buf))); [| lia].
  simpl. eexists; split; [reflexivity |].
  now rewrite length_insert.
Qed.

Lemma copy_at_length (src buf : list Z) (pos n : nat) :
  length (copy_at buf pos src n) = length buf.
Proof.
  revert buf pos n.
  induction src as [| x src IH]; intros buf pos [| n]; simpl;
    try reflexivity.
  now rewrite IH, length_insert.
Qed.

Lemma w_copy_len (w : window) (buf src : list Z) :
  len (w_copy w buf src) = len buf.
Proof. unfold w_copy, len. now rewrite copy_at_length. Qed.

Lemma wrap_int_small (x : Z) :
  - 2 ^ 63 <= x < 2 ^ 63 -> wrap_int x = x.
Proof.
  intros Hx. unfold wrap_int.
  rewrite Z.mod_small; lia.
Qed.

End Slices.

(** ** The PNG predictor *)

Section PNGPredictor.
Import Content.

Variables (data : list Z) (bytesPerPixel rowLength rows : Z).
Hypothesis Hbpp : 0 <= bytesPerPixel.
Hypothesis Hrl : 0 <= rowLength.
Hypothesis Hdata : len data = rows * (rowLength + 1).

Lemma png_row_ok (row : Z) (out : list Z) :
  0 <= row < rows ->
  len out = rows * rowLength ->
  exists out',
    png_row data bytesPerPixel rowLength (rowLength + 1) row out = Ok out'
    /\ len out' = rows * rowLength.
Proof.
  intros Hrow Hout. unfold png_row.
  pose proof (Z.mul_nonneg_nonneg row rowLength ltac:(lia) Hrl) as H1.
  pose proof (Z.mul_nonneg_nonneg (rows - row - 1) rowLength
                ltac:(lia) Hrl) as H2.
  destruct (index_at_ok data (row * (rowLength + 1))) as [predictor ->];
    [lia |]. simpl.
  destruct (slice_of_ok data (row * (rowLength + 1) + 1)
              ((row + 1) * (rowLength + 1))) as [rowData [-> HrowData]];
    [lia | lia |]. simpl.
  assert (Hlen : len rowData = rowLength) by lia. clear HrowData.
  rewrite (window_of_ok out (row * rowLength) ((row + 1) * rowLength))
    by lia.
  simpl.
  set (resultRow := {| w_lo := row * rowLength;
                       w_hi := (row + 1) * rowLength |}).
  assert (Hwlo : 0 <= w_lo resultRow) by (simpl; lia).
  assert (Hwhi : forall b : list Z,
             len b = rows * rowLength -> w_hi resultRow <= len b)
    by (intros b Hb; simpl; lia).
  assert (Hwlen : w_len resultRow = rowLength)
    by (unfold w_len; simpl; lia).
  assert (Hcopy : exists out',
             Ok (w_copy resultRow out rowData) = Ok out'
             /\ len out' = rows * rowLength).
  { eexists; split; [reflexivity |]. now rewrite w_copy_len. }
  destruct (predictor =? 0); [exact Hcopy |].
  destruct (predictor =? 1).
  { apply (for_loop_from_inv (fun b => len b = rows * rowLength));
      [assumption |].
    intros i b Hi Hb.
    destruct (index_at_ok rowData i) as [x ->]; [lia |].
    destruct (i <? bytesPerPixel) eqn:Hlt; simpl.
    - destruct (w_set_ok resultRow b i x) as [b' [-> Hb']];
        [assumption | auto | lia |].
      eexists; split; [reflexivity | lia].
    - apply Z.ltb_ge in Hlt.
      destruct (w_get_ok resultRow b (i - bytesPerPixel)) as [l ->];
        [assumption | auto | lia |]. simpl.
      destruct (w_set_ok resultRow b i (wrap8 (x + l))) as [b' [-> Hb']];
        [assumption | auto | lia |].
      eexists; split; [reflexivity | lia]. }
  destruct (predictor =? 2).
  { destruct (Z.eqb_spec row 0) as [-> | Hrow0]; [exact Hcopy |].
    pose proof (Z.mul_nonneg_nonneg (row - 1) rowLength ltac:(lia) Hrl)
      as H3.
    rewrite (window_of_ok out ((row - 1) * rowLength) (row * rowLength))
      by lia.
    simpl.
    set (prevRow := {| w_lo := (row - 1) * rowLength;
                       w_hi := row * rowLength |}).
    apply (for_loop_from_inv (fun b => len b = rows * rowLength));
      [assumption |].
    intros i b Hi Hb.
    destruct (index_at_ok rowData i) as [x ->]; [lia |]. simpl.
    destruct (w_get_ok prevRow b i) as [u ->];
      [simpl; lia | simpl; lia | unfold w_len; simpl; lia |]. simpl.
    destruct (w_set_ok resultRow b i (wrap8 (x + u))) as [b' [-> Hb']];
      [assumption | auto | lia |].
    eexists; split; [reflexivity | lia]. }
  destruct (predictor =? 3).
  { apply (for_loop_from_inv (fun b => len b = rows * rowLength));
      [assumption |].
    intros i b Hi Hb.
    assert (Hleft : exists l,
               (if bytesPerPixel <=? i
                then w_get resultRow b (i - bytesPerPixel) else Ok 0)
               = Ok l).
    { destruct (Z.leb_spec bytesPerPixel i); [| eauto].
      apply w_get_ok; [assumption | auto | lia]. }
    destruct Hleft as [l ->]. simpl.
    assert (Hup : exists u,
               (if 0 <? row
                then index_at b ((row - 1) * rowLength + i) else Ok 0)
               = Ok u).
    { destruct (Z.ltb_spec 0 row); [| eauto].
      pose proof (Z.mul_nonneg_nonneg (row - 1) rowLength ltac:(lia) Hrl).
      apply index_at_ok. lia. }
    destruct Hup as [u ->]. simpl.
    destruct (index_at_ok rowData i) as [x ->]; [lia |]. simpl.
    destruct (w_set_ok resultRow b i (wrap8 (x + wrap8 (l + u) / 2)))
      as [b' [-> Hb']]; [assumption | auto | lia |].
    eexists; split; [reflexivity | lia]. }
  destruct (predictor =? 4); [| exact Hcopy].
  apply (for_loop_from_inv (fun b => len b = rows * rowLength));
    [assumption |].
  intros i b Hi Hb.
  assert (Hleft : exists l,
             (if bytesPerPixel <=? i
              then w_get resultRow b (i - bytesPerPixel) else Ok 0)
             = Ok l).
  { destruct (Z.leb_spec bytesPerPixel i); [| eauto].
    apply w_get_ok; [assumption | auto | lia]. }
  destruct Hleft as [l ->]. simpl.
  assert (Hup : exists u,
             (if 0 <? row
              then index_at b ((row - 1) * rowLength + i) else Ok 0)
             = Ok u).
  { destruct (Z.ltb_spec 0 row); [| eauto].
    pose proof (Z.mul_nonneg_nonneg (row - 1) rowLength ltac:(lia) Hrl).
    apply index_at_ok. lia. }
  destruct Hup as [u ->]. simpl.
  assert (HupLeft : exists ul,
             (if (0 <? row) && (bytesPerPixel <=? i)
              then index_at b ((row - 1) * rowLength + i - bytesPerPixel)
              else Ok 0)
             = Ok ul).
  { destruct (Z.ltb_spec 0 row); simpl; [| eauto].
    destruct (Z.leb_spec bytesPerPixel i); [| eauto].
    pose proof (Z.mul_nonneg_nonneg (row - 1) rowLength ltac:(lia) Hrl).
    apply index_at_ok. lia. }
  destruct HupLeft as [ul ->]. simpl.
  destruct (index_at_ok rowData i) as [x ->]; [lia |]. simpl.
  destruct (w_set_ok resultRow b i (wrap8 (x + paethPredictor l u ul)))
    as [b' [-> Hb']]; [assumption | auto | lia |].
  eexists; split; [reflexivity | lia].
Qed.

End PNGPredictor.

Section PNGPredictorResults.
Import Content.

Lemma applyPNGPredictor_ok (data : list Z) (columns bytesPerPixel rowLength : Z) :
  0 <= bytesPerPixel ->
  0 <= rowLength ->
  len data <= GoString.max_int64 ->
  0 < len data ->
  len data mod (rowLength + 1) = 0 ->
  exists out,
    applyPNGPredictor data columns bytesPerPixel rowLength = Ok out
    /\ len out = len data / (rowLength + 1) * rowLength.
Proof.
  intros Hbpp Hrl Hmax Hpos Hmod.
  set (rows := len data / (rowLength + 1)).
  assert (Hdata : len data = rows * (rowLength + 1)).
  { unfold rows.
    rewrite (Z.div_mod (len data) (rowLength + 1)) at 1 by lia. lia. }
  assert (Hrows : 0 < rows).
  { destruct (Z.lt_trichotomy rows 0) as [Hneg | [Hz | Hp]];
      [| rewrite Hz in Hdata; lia | assumption].
    pose proof (Z.mul_nonneg_nonneg (- rows) (rowLength + 1)); lia. }
  assert (Hstride : rowLength + 1 <= len data).
  { pose proof (Z.mul_nonneg_nonneg (rows - 1) (rowLength + 1)); lia. }
  assert (Hsize : 0 <= rows * rowLength <= len data).
  { pose proof (Z.mul_nonneg_nonneg rows rowLength); lia. }
  unfold GoString.max_int64 in Hmax.
  unfold applyPNGPredictor.
  rewrite (wrap_int_small (rowLength + 1)) by lia.
  destruct (Z.eqb_spec (rowLength + 1) 0); [lia |].
  rewrite Z.quot_div_nonneg, Z.rem_mod_nonneg by lia.
  fold rows. rewrite Hmod.
  destruct (Z.eqb_spec rows 0); [lia |]. simpl.
  rewrite (wrap_int_small (rows * rowLength)) by lia.
  destruct (Z.ltb_spec (rows * rowLength) 0); [lia |].
  unfold for_loop.
  apply (for_loop_from_inv (fun b => len b = rows * rowLength)).
  - unfold len. rewrite repeat_length. lia.
  - intros row b Hrow Hb.
    apply (png_row_ok data bytesPerPixel rowLength rows); auto; lia.
Qed.

Lemma applyPNGPredictor_err (data : list Z) (columns bytesPerPixel rowLength : Z) :
  0 <= rowLength < GoString.max_int64 ->
  len data = 0 \/ len data mod (rowLength + 1) <> 0 ->
  applyPNGPredictor data columns bytesPerPixel rowLength
  = Err "invalid data size for PNG predictor".
Proof.
  intros Hrl Hbad. unfold GoString.max_int64 in Hrl.
  assert (Hlen : 0 <= len data) by (unfold len; lia).
  unfold applyPNGPredictor.
  rewrite (wrap_int_small (rowLength + 1)) by lia.
  destruct (Z.eqb_spec (rowLength + 1) 0); [lia |].
  rewrite Z.quot_div_nonneg, Z.rem_mod_nonneg by lia.
  destruct Hbad as [Hzero | Hmod].
  - rewrite Hzero. simpl. reflexivity.
  - destruct (Z.eqb_spec (len data mod (rowLength + 1)) 0); [lia |].
    now rewrite orb_true_r.
Qed.

(** C8 (amended): with a row length and a pixel width that are not
    negative, the PNG predictor fails exactly when the encoded length is
    zero or is not a whole multiple of [rowLength + 1]; on a positive
    multiple it succeeds and returns a decoded buffer. *)
Theorem applyPNGPredictor_fails_exactly
    (data : list Z) (columns bytesPerPixel rowLength : Z) :
  0 <= bytesPerPixel ->
  0 <= rowLength < GoString.max_int64 ->
  len data <= GoString.max_int64 ->
  (len data = 0 \/ len data mod (rowLength + 1) <> 0 ->
   applyPNGPredictor data columns bytesPerPixel rowLength
   = Err "invalid data size for PNG predictor")
  /\ (0 < len data /\ len data mod (rowLength + 1) = 0 ->
      exists out,
        applyPNGPredictor data columns bytesPerPixel rowLength = Ok out).
Proof.
  intros Hbpp Hrl Hmax. split.
  - apply applyPNGPredictor_err. assumption.
  - intros [Hpos Hmod].
    destruct (applyPNGPredictor_ok data columns bytesPerPixel rowLength)
      as [out [Hout _]]; try assumption; [lia | eauto].
Qed.

(** C9: when the input length is a positive multiple of [rowLength + 1]
    the PNG predictor succeeds and the returned buffer has
    [rows * rowLength] bytes, [rows = len data / (rowLength + 1)]:
    the input minus one tag byte per row, whatever the row filters. *)
Theorem applyPNGPredictor_output_length
    (data : list Z) (columns bytesPerPixel rowLength : Z) :
  0 <= bytesPerPixel ->
  0 <= rowLength ->
  len data <= GoString.max_int64 ->
  0 < len data ->
  len data mod (rowLength + 1) = 0 ->
  exists out,
    applyPNGPredictor data columns bytesPerPixel rowLength = Ok out
    /\ len out = len data / (rowLength + 1) * rowLength
    /\ len out = len data - len data / (rowLength + 1).
Proof.
  intros Hbpp Hrl Hmax Hpos Hmod.
  destruct (applyPNGPredictor_ok data columns bytesPerPixel rowLength)
    as [out [Hout Hlen]]; try assumption.
  exists out. repeat split; try assumption.
  rewrite Hlen.
  rewrite (Z.div_mod (len data) (rowLength + 1)) at 2 by lia. lia.
Qed.

End PNGPredictorResults.

Example applyPNGPredictor_sample :
  Content.applyPNGPredictor png_sample 2 1 2
  = Ok [10; 30; 11; 31; 9; 26; 3; 33].
Proof. vm_compute. reflexivity. Qed.

Lemma applyPNGPredictor_fails_exactly_witness :
  0 <= 1 /\ 0 <= 2 < GoString.max_int64
  /\ len png_sample <= GoString.max_int64
  /\ ((len png_sample = 0 \/ len png_sample mod (2 + 1) <> 0 ->
       Content.applyPNGPredictor png_sample 2 1 2
       = Err "invalid data size for PNG predictor")
      /\ (0 < len png_sample /\ len png_sample mod (2 + 1) = 0 ->
          exists out, Content.applyPNGPredictor png_sample 2 1 2 = Ok out)).
Proof.
  assert (H1 : 0 <= 1) by lia.
  assert (H2 : 0 <= 2 < GoString.max_int64) by (unfold GoString.max_int64; lia).
  assert (H3 : len png_sample <= GoString.max_int64)
    by (vm_compute; discriminate).
  exact (conj H1 (conj H2 (conj H3
           (applyPNGPredictor_fails_exactly png_sample 2 1 2 H1 H2 H3)))).
Defined.

(** C8, as stated, fails on the empty buffer: its length is a whole multiple
    of [rowLength + 1], and the predictor reports an error. *)
Lemma applyPNGPredictor_empty_fails :
  len ([] : list Z) mod (4 + 1) = 0
  /\ Content.applyPNGPredictor [] 4 1 4
     = Err "invalid data size for PNG predictor".
Proof. split; reflexivity. Qed.

Lemma applyPNGPredictor_output_length_witness :
  0 <= 1 /\ 0 <= 2 /\ len png_sample <= GoString.max_int64
  /\ 0 < len png_sample /\ len png_sample mod (2 + 1) = 0
  /\ exists out,
       Content.applyPNGPredictor png_sample 2 1 2 = Ok out
       /\ len out = len png_sample / (2 + 1) * 2
       /\ len out = len png_sample - len png_sample / (2 + 1).
Proof.
  assert (H1 : 0 <= 1) by lia.
  assert (H2 : 0 <= 2) by lia.
  assert (H3 : len png_sample <= GoString.max_int64)
    by (vm_compute; discriminate).
  assert (H4 : 0 < len png_sample) by reflexivity.
  assert (H5 : len png_sample mod (2 + 1) = 0) by reflexivity.
  exact (conj H1 (conj H2 (conj H3 (conj H4 (conj H5
           (applyPNGPredictor_output_length png_sample 2 1 2
              H1 H2 H3 H4 H5)))))).
Defined.

(** ** The filter chain *)

Section FilterChain.
Import Content.

Variable zlib_inflate : list Z -> result (list Z).
Variable ascii85_decode : list Z -> result (list Z).
Variable ParseDictionary : string -> gmap string PDFValue.

Lemma numbered_snoc (names : list string) (name : string) :
  numbered (names ++ [name]) = numbered names ++ [(length names, name)].
Proof.
  unfold numbered. rewrite length_app, seq_app. simpl.
  rewrite zip_with_app by now rewrite length_seq. reflexivity.
Qed.

Lemma filterLoop_chain (filterArray : list string)
    (decodeParms : gmap string PDFValue) (n : nat) :
  forall acc : list Z,
    (n <= length filterArray)%nat ->
    filterLoop zlib_inflate ascii85_decode ParseDictionary
      filterArray decodeParms n acc
    = applyChain zlib_inflate ascii85_decode ParseDictionary decodeParms
        (rev (numbered (take n filterArray))) acc.
Proof.
  induction n as [| n IH]; intros acc Hn; simpl.
  - reflexivity.
  - destruct (lookup_lt_is_Some_2 filterArray n) as [name Hname]; [lia |].
    rewrite (take_S_r _ _ _ Hname), numbered_snoc, rev_app_distr.
    rewrite length_take, Nat.min_l by lia. simpl.
    destruct (filterParmsAt ParseDictionary decodeParms n); simpl;
      try reflexivity.
    rewrite Hname.
    destruct (applySingleFilter zlib_inflate ascii85_decode acc name a);
      try reflexivity.
    apply IH. lia.
Qed.

(** C1 (amended): for a filter array, [DecompressStream] applies the
    filters from the last name of the array to the first: the last
    filter is the decoder applied to the raw bytes, the one before it is
    applied to that result, and the first filter of the array is applied
    last; a specification that is not an array is one filter. *)
Theorem DecompressStream_last_filter_first
    (stream : list Z) (filterSpec : string)
    (decodeParms : gmap string PDFValue) :
  DecompressStream zlib_inflate ascii85_decode ParseDictionary
    stream filterSpec decodeParms
  = if GoString.HasPrefix filterSpec "[" && GoString.HasSuffix filterSpec "]"
    then applyChain zlib_inflate ascii85_decode ParseDictionary decodeParms
           (rev (numbered (Utils.ParseArray filterSpec))) stream
    else applySingleFilter zlib_inflate ascii85_decode
           stream filterSpec decodeParms.
Proof.
  unfold DecompressStream.
  destruct (GoString.HasPrefix filterSpec "[" && GoString.HasSuffix filterSpec "]");
    [| reflexivity].
  rewrite filterLoop_chain by lia.
  now rewrite firstn_all.
Qed.

(** With the usual pair of filters the inflater is the decoder that
    receives the raw bytes, although it is named second. *)
Lemma DecompressStream_ascii85_flate (stream : list Z) :
  DecompressStream zlib_inflate ascii85_decode ParseDictionary
    stream "[/ASCII85Decode /FlatDecode]" ∅
  = match zlib_inflate stream with
    | Ok inflated =>
        match ascii85_decode inflated with
        | Ok decoded => Ok decoded
        | Err e => Err ("filter /ASCII85Decode error: " +:+ e)
        | Panic m => Panic m
        end
    | Err e => Err ("filter /FlatDecode error: " +:+ e)
    | Panic m => Panic m
    end.
Proof.
  unfold DecompressStream.
  change (GoString.HasPrefix "[/ASCII85Decode /FlatDecode]" "["
          && GoString.HasSuffix "[/ASCII85Decode /FlatDecode]" "]") with true.
  cbv iota. rewrite filterLoop_chain by lia. rewrite firstn_all.
  change (rev (numbered (Utils.ParseArray "[/ASCII85Decode /FlatDecode]")))
    with [(1%nat, "/FlatDecode"); (0%nat, "/ASCII85Decode")].
  cbn [applyChain].
  unfold filterParmsAt. rewrite lookup_empty. simpl.
  unfold applySingleFilter. simpl. rewrite lookup_empty.
  destruct (zlib_inflate stream) as [inflated | |]; reflexivity.
Qed.

(** C2: the name [/FlateDecode] is not a case of [applySingleFilter]: it
    reaches the default branch and is reported as unsupported, whatever
    the stream and the decode parameters. *)
Theorem applySingleFilter_FlateDecode_unsupported
    (stream : list Z) (decodeParms : gmap string PDFValue) :
  applySingleFilter zlib_inflate ascii85_decode
    stream "/FlateDecode" decodeParms
  = Err "unsupported filter type: /FlateDecode".
Proof. reflexivity. Qed.

(** The spelling [/FlatDecode] is the one that inflates and then applies
    the predictor when [/Predictor] is at least 2. *)
Lemma applySingleFilter_FlatDecode
    (stream : list Z) (decodeParms : gmap string PDFValue) :
  applySingleFilter zlib_inflate ascii85_decode
    stream "/FlatDecode" decodeParms
  = (decompressed ← zlib_inflate stream;
     match decodeParms !! "Predictor" with
     | Some predictorStr =>
         s ← as_string predictorStr;
         let predictor := GoString.AtoiValue s in
         if 2 <=? predictor
         then applyPredictor decompressed predictor decodeParms
         else Ok decompressed
     | None => Ok decompressed
     end).
Proof.
  unfold applySingleFilter. simpl.
  destruct (zlib_inflate stream); simpl; try reflexivity.
  destruct (decodeParms !! "Predictor"); [| reflexivity].
  destruct (as_string p); simpl; try reflexivity.
  destruct (Z.ltb_spec 1 (GoString.AtoiValue a0)),
    (Z.leb_spec 2 (GoString.AtoiValue a0)); try lia; reflexivity.
Qed.

End FilterChain.

(** C1, as stated, fails on the raw bytes [5] with the filters
    [/RunLengthDecode /LZWDecode]: the first filter of the array rejects
    these raw bytes, so applying it first would report its error; the code
    reports the error of the last filter, the one it applied to the raw
    bytes. *)
Lemma DecompressStream_not_in_array_order :
  (forall zlib_inflate ascii85_decode ParseDictionary,
     Content.DecompressStream zlib_inflate ascii85_decode ParseDictionary
       [5] "[/RunLengthDecode /LZWDecode]" ∅
     = Err "filter /LZWDecode error: LZW decompression not implemented")
  /\ (forall zlib_inflate ascii85_decode ParseDictionary,
        applyChain zlib_inflate ascii85_decode ParseDictionary ∅
          (numbered (Utils.ParseArray "[/RunLengthDecode /LZWDecode]")) [5]
        = Err "filter /RunLengthDecode error: run length decode error: not enough data for literal copy").
Proof. split; intros; vm_compute; reflexivity. Qed.

(** ** The cross-reference locator *)

Example updated_file_last_startxref :
  find_last_startxref
    (Document.trailing_window updated_file (len (GoString.chars updated_file)))
  = Some (GoString.chars "121").
Proof. vm_compute. reflexivity. Qed.

(** C3: on a file whose trailing 1 KiB holds two [startxref] tokens the
    offset returned is the integer after the first of them, 52, and not the
    integer after the last one, 121. *)
Theorem findLastXRefOffset_returns_first_match :
  Document.findLastXRefOffset updated_file (len (GoString.chars updated_file))
  = Ok 52.
Proof. vm_compute. reflexivity. Qed.

(** ** Stream boundaries *)

(** C10: the object [1 0 obj], whose next line is [endstreamendobj], has
    the body [endstream]; its first [stream] is the tail of [endstream] and
    ends the body, and the byte access after it is out of range. *)
Theorem detectStream_index_out_of_range :
  Document.objectBody ["1 0 obj"; "endstreamendobj"] = "endstream"
  /\ GoString.Contains "endstream" "stream" = true
  /\ GoString.Contains "endstream" "endstream" = true
  /\ Document.detectStream "endstream" = Panic "index out of range".
Proof. repeat split; vm_compute; reflexivity. Qed.

(** A carriage return that ends the body is followed by the same access. *)
Example detectStream_carriage_return :
  Document.objectBody ["1 0 obj"; "endstream" +:+ String "013" "endobj"]
  = "endstream" +:+ String "013" ""
  /\ Document.detectStream ("endstream" +:+ String "013" "")
     = Panic "index out of range".
Proof. split; vm_compute; reflexivity. Qed.

Example detectStream_regular :
  Document.detectStream
    (unlines ["<< /Length 5 >>"; "stream"; "hello"; "endstream"])
  = Ok (Some (unlines ["hello"])).
Proof. vm_compute. reflexivity. Qed.

(** The accesses are in bounds when two bytes or more follow the first
    [stream]. *)
Lemma detectStream_in_bounds (contentBytes : string) :
  GoString.Index contentBytes "stream" + 8 <= len (GoString.chars contentBytes) ->
  exists found, Document.detectStream contentBytes = Ok found.
Proof.
  intros Hroom. unfold Document.detectStream.
  destruct (GoString.Contains contentBytes "stream") eqn:Hc; [| simpl; eauto].
  destruct (GoString.Contains contentBytes "endstream"); [| simpl; eauto].
  simpl.
  assert (Hidx : 0 <= GoString.Index contentBytes "stream").
  { unfold GoString.Index, GoString.Contains in *.
    destruct (GoString.index_of _ _); [lia | discriminate]. }
  assert (Hbyte : forall i, 0 <= i < len (GoString.chars contentBytes) ->
            exists c, Document.byte_at contentBytes i = Ok c).
  { intros i Hi. unfold Document.byte_at, len in *.
    destruct (Z.leb_spec 0 i); [| lia].
    destruct (Z.ltb_spec i (Z.of_nat (length (GoString.chars contentBytes))));
      [| lia]. simpl.
    destruct (lookup_lt_is_Some_2 (GoString.chars contentBytes) (Z.to_nat i))
      as [c ->]; [lia | eauto]. }
  destruct (Hbyte (GoString.Index contentBytes "stream" + 6)) as [c0 ->];
    [lia |]. simpl.
  destruct (Ascii.eqb c0 "013").
  - destruct (Hbyte (GoString.Index contentBytes "stream" + 6 + 1))
      as [c1 ->]; [lia |]. simpl.
    destruct (Ascii.eqb c1 "010"); simpl;
      match goal with |- context [if ?b then _ else _] => destruct b end;
      eauto.
  - destruct (Ascii.eqb c0 "010"); simpl;
      match goal with |- context [if ?b then _ else _] => destruct b end;
      eauto.
Qed.

(** ** Fonts *)

Section Fonts.

(** C6: after the font step of [ParsePDF] the font table has the entry
    [/DefaultFont], and its code-to-unicode map is empty: no code, and
    so no code of 0..255, is sent to a character by it. *)
Theorem processFonts_default_font_is_empty (doc : Document.PDFDocument) :
  exists font,
    Document.Fonts (Document.finishDocument doc) !! "/DefaultFont"
    = Some font
    /\ Document.CodeToUnicode font = ∅
    /\ Document.CodeToUnicode font !! 65 = None.
Proof.
  eexists. split; [| split].
  - simpl. apply lookup_insert_eq.
  - reflexivity.
  - apply lookup_empty.
Qed.

Lemma identityRange_lookup (lo : Z) (n : nat) (m : gmap Z Z) (c : Z) :
  Text.identityRange lo n m !! c
  = if (lo <=? c) && (c <? lo + Z.of_nat n) then Some c else m !! c.
Proof.
  unfold Text.identityRange.
  revert lo m. induction n as [| n IH]; intros lo m.
  - change (Z.of_nat 0) with 0. rewrite seqZ_nil by lia. simpl.
    destruct (Z.leb_spec lo c), (Z.ltb_spec c (lo + 0));
      try reflexivity; lia.
  - rewrite seqZ_cons by lia. simpl fold_left.
    replace (Z.pred (Z.of_nat (Datatypes.S n))) with (Z.of_nat n) by lia.
    rewrite IH.
    destruct (decide (lo = c)) as [-> | Hne].
    + rewrite lookup_insert_eq.
      destruct (Z.leb_spec (Z.succ c) c),
        (Z.ltb_spec c (Z.succ c + Z.of_nat n)),
        (Z.leb_spec c c), (Z.ltb_spec c (c + Z.of_nat (Datatypes.S n)));
        simpl; try reflexivity; lia.
    + rewrite lookup_insert_ne by assumption.
      destruct (Z.leb_spec (Z.succ lo) c),
        (Z.ltb_spec c (Z.succ lo + Z.of_nat n)),
        (Z.leb_spec lo c), (Z.ltb_spec c (lo + Z.of_nat (Datatypes.S n)));
        simpl; try reflexivity; lia.
Qed.

(** The font processor of the text package fills the same entry with the
    identity on 0..255. *)
Lemma createDefaultFont_identity
    (fonts : gmap string Document.PDFFont) (c : Z) :
  exists font,
    Text.createDefaultFont fonts !! "/DefaultFont" = Some font
    /\ Document.CodeToUnicode font !! c
       = if (0 <=? c) && (c <=? 255) then Some c else None.
Proof.
  eexists. split; [apply lookup_insert_eq |]. simpl.
  rewrite !identityRange_lookup, lookup_empty.
  destruct (Z.leb_spec 128 c), (Z.ltb_spec c (128 + Z.of_nat 128)),
    (Z.leb_spec 0 c), (Z.ltb_spec c (0 + Z.of_nat 128)), (Z.leb_spec c 255);
    simpl; try reflexivity; lia.
Qed.

Lemma ensureDefaultFont_has_default (fonts : gmap string Document.PDFFont) :
  is_Some (Text.ensureDefaultFont fonts !! "/DefaultFont").
Proof.
  assert (Hcreate : forall f : gmap string Document.PDFFont,
             is_Some (Text.createDefaultFont f !! "/DefaultFont")).
  { intros f. unfold Text.createDefaultFont.
    rewrite lookup_insert_eq. eauto. }
  unfold Text.ensureDefaultFont.
  destruct (Z.of_nat (size fonts) =? 0).
  - destruct (Hcreate fonts) as [font Hfont]. rewrite Hfont. eauto.
  - destruct (fonts !! "/DefaultFont") eqn:E; [rewrite E; eauto |].
    apply Hcreate.
Qed.

(** A font name that is not in the table selects [/DefaultFont]. *)
Lemma currentFont_unknown (fonts : gmap string Document.PDFFont)
    (fontName : string) (font : Document.PDFFont) :
  fonts !! ("/" +:+ fontName) = None ->
  fonts !! "/DefaultFont" = Some font ->
  Text.currentFont fonts fontName = font.
Proof. intros H1 H2. unfold Text.currentFont. now rewrite H1, H2. Qed.

(** With the empty map every byte is decoded to the character of its own
    code by the fallback of [decodeText]. *)
Lemma decodeByte_empty_map (font : Document.PDFFont) (b : Z) :
  Document.CodeToUnicode font = ∅ -> Text.decodeByte font b = b.
Proof. intros H. unfold Text.decodeByte. now rewrite H, lookup_empty. Qed.

End Fonts.

(** ** Page contents *)

Section PageContents.
Import Document.

Lemma fold_appendContent (doc : PDFDocument) (items : list string)
    (streams : list (list Z)) :
  Forall2 (resolves_to_stream doc) items streams ->
  forall acc,
    fold_left (appendContent doc) items acc = acc ++ terminate_streams streams.
Proof.
  induction 1 as [| item s items streams Hres _ IH]; intros acc; simpl.
  - now rewrite app_nil_r.
  - destruct Hres as (objNum & obj & Href & Hobj & Hstream & Hs).
    unfold appendContent at 2. rewrite Href, Hobj, Hstream, Hs.
    rewrite IH. unfold terminate_streams. simpl.
    now rewrite <- !app_assoc.
Qed.

Lemma pageContents_array (doc : PDFDocument) (obj : PDFObject)
    (contents : string) (streams : list (list Z)) :
  Dictionary obj !! "Contents" = Some (VString contents) ->
  GoString.HasPrefix contents "[" = true ->
  Forall2 (resolves_to_stream doc) (Utils.ParseArray contents) streams ->
  pageContents doc obj = terminate_streams streams.
Proof.
  intros Hc Hp Hres. unfold pageContents. rewrite Hc, Hp.
  now rewrite (fold_appendContent doc _ streams Hres).
Qed.

(** When the items of a [/Contents] array do resolve, as the items of the
    array of arrays [[[4 0 R] [5 0 R]]] do, the page stores the bytes of
    the streams in array order, each stream followed by one newline, the
    last stream included. *)
Lemma processPageTree_contents_array
    (fuel : nat) (doc : PDFDocument) (objNum pageCounter : Z)
    (obj : PDFObject) (contents : string) (streams : list (list Z)) :
  Objects doc !! objNum = Some obj ->
  Dictionary obj !! "Type" = Some (VString "/Page") ->
  mediaBoxBlock obj = Ok tt ->
  resourcesBlock obj = Ok tt ->
  Dictionary obj !! "Contents" = Some (VString contents) ->
  GoString.HasPrefix contents "[" = true ->
  Forall2 (resolves_to_stream doc) (Utils.ParseArray contents) streams ->
  processPageTree (Datatypes.S fuel) doc objNum pageCounter
  = Ok (addPage doc {| PageNumber := pageCounter;
                       Contents := terminate_streams streams;
                       Text := [] |},
        pageCounter + 1).
Proof.
  intros Hobj Htype Hmedia Hres Hc Hp Hstreams. simpl.
  rewrite Hobj, Htype. simpl. rewrite Hmedia, Hres. simpl.
  now rewrite (pageContents_array doc obj contents streams).
Qed.

End PageContents.

(** The two content streams of the sample page hold [BT] and [ET]: joined
    with one newline between them they are 5 bytes; for the array
    [[4 0 R 5 0 R]] the page stores no byte, and for the array of arrays
    [[[4 0 R] [5 0 R]]], whose items resolve, the page stores 6 bytes, a
    newline after the last stream too. *)
Lemma processPageTree_contents_not_joined :
  join_streams [[66; 84]; [69; 84]] = [66; 84; 10; 69; 84]
  /\ stored_contents
       (Document.processPageTree 1 (two_stream_document "[4 0 R 5 0 R]") 3 1)
     = [[]]
  /\ stored_contents
       (Document.processPageTree 1
          (two_stream_document "[[4 0 R] [5 0 R]]") 3 1)
     = [[66; 84; 10; 69; 84; 10]].
Proof. repeat split; vm_compute; reflexivity. Qed.

(** ** Text chunks *)

Section Chunks.
Import Document.








Variable L : list (list Z).
Hypothesis L_no_newline : Forall (fun l => ~ In newline l) L.







End Chunks.

(** *** The layout of the text *)

Section ChunkLayout.
Import Document.





Variable L : list (list Z).
Hypothesis L_no_newline : Forall (fun l => ~ In newline l) L.



End ChunkLayout.

Section ChunkResults.
Import Document.









(** *** The properties of the chunks determine them *)














End ChunkResults.


(** * Further properties of the code *)

(** ** Predictor tables *)

(** X1: the Paeth predictor returns one of its three arguments, and none
    of them is nearer to [p = a + b - c] than the one returned; when [a]
    is as near as the others it is [a] that is returned. *)
Theorem paethPredictor_nearest (a b c : Z) :
  let p := a + b - c in
  let r := Content.paethPredictor a b c in
  (r = a \/ r = b \/ r = c)
  /\ Z.abs (p - r) <= Z.abs (p - a)
  /\ Z.abs (p - r) <= Z.abs (p - b)
  /\ Z.abs (p - r) <= Z.abs (p - c)
  /\ (Z.abs (p - a) <= Z.abs (p - b) /\ Z.abs (p - a) <= Z.abs (p - c) ->
      r = a).
Proof.
  intros p r. subst p r. unfold Content.paethPredictor, Content.abs.
  repeat match goal with
         | |- context [?x <? ?y] => destruct (Z.ltb_spec x y)
         | |- context [?x <=? ?y] => destruct (Z.leb_spec x y)
         end; simpl; lia.
Qed.

(** X2: [SupportedPredictors] lists exactly the values for which
    [GetPredictorName] has a name, and these are 1 and the values that
    [IsTIFFPredictor] or [IsPNGPredictor] accept. *)
Theorem SupportedPredictors_named (predictor : Z) :
  (In predictor Content.SupportedPredictors
   <-> predictor = 1 \/ Content.IsTIFFPredictor predictor = true
       \/ Content.IsPNGPredictor predictor = true)
  /\ (In predictor Content.SupportedPredictors
      <-> Content.GetPredictorName predictor <> "Unknown Predictor").
Proof.
  unfold Content.SupportedPredictors, Content.IsTIFFPredictor,
    Content.IsPNGPredictor, Content.GetPredictorName.
  simpl In.
  destruct (Z.eqb_spec predictor 1) as [E1 | E1],
    (Z.eqb_spec predictor 2) as [E2 | E2],
    (Z.leb_spec 10 predictor) as [L1 | L1],
    (Z.leb_spec predictor 15) as [L2 | L2]; simpl;
    (split; split; intros Hx; try discriminate; try lia;
     try (exfalso; apply Hx; reflexivity);
     try (destruct Hx as [Hx | [Hx | Hx]]; try discriminate; lia)).
Qed.

(** ** Filters *)

(** X3: [IsSupported] accepts exactly the names of [GetSupportedFilters],
    and a name it rejects is never decoded: [applySingleFilter] answers
    with an error for every stream and every decode parameter. *)
Theorem IsSupported_filters (filterType : string) :
  (Content.IsSupported filterType = true
   <-> In filterType Content.GetSupportedFilters)
  /\ (Content.IsSupported filterType = false ->
      forall zlib_inflate ascii85_decode stream decodeParms,
      exists msg,
        Content.applySingleFilter zlib_inflate ascii85_decode
          stream filterType decodeParms = Err msg).
Proof.
  unfold Content.IsSupported, Content.GetSupportedFilters,
    Content.applySingleFilter.
  simpl In.
  destruct (String.eqb_spec filterType "/FlatDecode");
    [subst; simpl; split; [tauto | discriminate] |].
  destruct (String.eqb_spec filterType "/ASCII85Decode");
    [subst; simpl; split; [tauto | discriminate] |].
  destruct (String.eqb_spec filterType "/LZWDecode").
  { subst. simpl. split; [| eauto].
    split; [discriminate |]. intros [H | [H | [H | [H | [H | []]]]]];
      discriminate. }
  destruct (String.eqb_spec filterType "/RunLengthDecode");
    [subst; simpl; split; [tauto | discriminate] |].
  destruct (String.eqb_spec filterType "/DCTDecode");
    [subst; simpl; split; [tauto | discriminate] |].
  destruct (String.eqb_spec filterType "/JPXDecode");
    [subst; simpl; split; [tauto | discriminate] |].
  simpl. split.
  - split; [discriminate |].
    intros [H | [H | [H | [H | [H | []]]]]]; congruence.
  - intros _ zlib_inflate ascii85_decode stream decodeParms.
    destruct (String.eqb filterType "/CCITTFaxDecode"); [eauto |].
    destruct (String.eqb filterType "/JBIG2Decode"); eauto.
Qed.

(** ** Run-length decoding: errors, bounds and the end marker *)

Lemma decodeLoop_bounded (n : nat) :
  forall input out,
    (length input <= n)%nat ->
    (exists out',
       Content.decodeLoop input out = Ok out'
       /\ len out' <= len out + 128 * len input)
    \/ (exists msg, Content.decodeLoop input out = Err msg).
Proof.
  induction n as [| n IH]; intros input out Hn.
  - destruct input; [| simpl in Hn; lia].
    left. exists out. rewrite Content.decodeLoop_equation_1.
    split; [reflexivity | unfold len; simpl; lia].
  - destruct input as [| b rest].
    { left. exists out. rewrite Content.decodeLoop_equation_1.
      split; [reflexivity | unfold len; simpl; lia]. }
    simpl in Hn. rewrite Content.decodeLoop_equation_2.
    destruct (Z.eqb_spec b 128).
    { left. exists out. split; [reflexivity |]. unfold len. simpl. lia. }
    destruct (Z.ltb_spec b 128).
    + cbv zeta. destruct (len rest <? b + 1); [right; eauto |].
      destruct (IH (skipn (Z.to_nat (b + 1)) rest)
                   (out ++ firstn (Z.to_nat (b + 1)) rest))
        as [(out' & -> & Hlen) | Herr];
        [rewrite length_skipn; lia | left | right; assumption].
      exists out'. split; [reflexivity |].
      unfold len in *. rewrite length_app, length_firstn, length_skipn in Hlen.
      simpl length. lia.
    + cbv zeta. destruct (len rest <=? 0); [right; eauto |].
      destruct (IH (skipn 1 rest)
                   (out ++ repeat (nth 0 rest 0) (Z.to_nat (257 - b))))
        as [(out' & -> & Hlen) | Herr];
        [rewrite length_skipn; lia | left | right; assumption].
      exists out'. split; [reflexivity |].
      unfold len in *. rewrite length_app, repeat_length, length_skipn in Hlen.
      simpl length. lia.
Qed.

(** X4: [decodeRunLength] never panics: it returns an error, or a buffer
    that is at most 128 times as long as its input. *)
Theorem decodeRunLength_bounded (input : list Z) :
  (exists out,
     Content.decodeRunLength input = Ok out
     /\ len out <= 128 * len input)
  \/ (exists msg, Content.decodeRunLength input = Err msg).
Proof.
  unfold Content.decodeRunLength.
  destruct (decodeLoop_bounded (length input) input [] (le_n _))
    as [(out & Hout & Hlen) | Herr]; [left | right; assumption].
  exists out. split; [assumption |]. unfold len in *. simpl in Hlen. lia.
Qed.

Lemma decodeLoop_packets_tail (ps : list RunLengthRef.packet)
    (tail out : list Z) :
  Forall RunLengthRef.well_formed ps ->
  Content.decodeLoop (flat_map RunLengthRef.write_packet ps ++ tail) out
  = Content.decodeLoop tail (out ++ concat (map RunLengthRef.expand ps)).
Proof.
  intros Hwf. revert out.
  induction Hwf as [| p ps Hp _ IH]; intros out; simpl.
  - now rewrite app_nil_r.
  - rewrite <- app_assoc, decodeLoop_packet by assumption.
    rewrite IH. now rewrite <- app_assoc.
Qed.

(** X5: the end marker 128 stops the decoder, so the bytes that follow an
    encoded buffer are ignored; and the marker is optional: the encoded
    buffer without it decodes to the same bytes. *)
Theorem decodeRunLength_end_marker (B junk : list Z) :
  Content.decodeRunLength (RunLengthRef.encodeRunLength B ++ junk) = Ok B
  /\ Content.decodeRunLength (removelast (RunLengthRef.encodeRunLength B))
     = Ok B.
Proof.
  unfold Content.decodeRunLength, RunLengthRef.encodeRunLength. split.
  - rewrite <- app_assoc.
    rewrite decodeLoop_packets_tail by apply packets_well_formed.
    simpl. rewrite Content.decodeLoop_equation_2. simpl.
    now rewrite packets_expand.
  - rewrite removelast_last.
    rewrite <- (app_nil_r (flat_map _ _)).
    rewrite decodeLoop_packets_tail by apply packets_well_formed.
    rewrite Content.decodeLoop_equation_1. simpl.
    now rewrite packets_expand.
Qed.

(** ** Filter counts *)

Lemma fold_increment_lookup (names : list string) (name : string) :
  forall counts : gmap string Z,
    fold_left Content.increment names counts !! name
    = if Nat.eqb (count_occ string_dec names name) 0 then counts !! name
      else Some (default 0 (counts !! name)
                 + Z.of_nat (count_occ string_dec names name)).
Proof.
  induction names as [| x names IH]; intros counts; [reflexivity |].
  cbn [fold_left count_occ]. rewrite IH. unfold Content.increment.
  destruct (string_dec x name) as [-> | Hne].
  - rewrite lookup_insert_eq. cbn [default id].
    change (Nat.eqb (Datatypes.S (count_occ string_dec names name)) 0)
      with false. cbv iota.
    destruct (count_occ string_dec names name) as [| k]; simpl Nat.eqb;
      cbv iota; f_equal; lia.
  - rewrite lookup_insert_ne by assumption. reflexivity.
Qed.

Lemma GetFilterCounts_fold (filterSpecs : list string) :
  forall counts : gmap string Z,
    fold_left (fun counts spec =>
      if GoString.HasPrefix spec "[" && GoString.HasSuffix spec "]"
      then fold_left Content.increment (Utils.ParseArray spec) counts
      else Content.increment counts spec) filterSpecs counts
    = fold_left Content.increment (filterNames filterSpecs) counts.
Proof.
  induction filterSpecs as [| spec specs IH]; intros counts; [reflexivity |].
  cbn [fold_left]. rewrite IH. unfold filterNames. cbn [flat_map].
  rewrite fold_left_app.
  destruct (GoString.HasPrefix spec "[" && GoString.HasSuffix spec "]");
    reflexivity.
Qed.

(** X6: [GetFilterCounts] gives every filter name the number of times it
    occurs in the specifications, the items of an array counted one by
    one, and has no entry for a name that does not occur. *)
Theorem GetFilterCounts_counts (filterSpecs : list string) (name : string) :
  Content.GetFilterCounts filterSpecs !! name
  = if Nat.eqb (count_occ string_dec (filterNames filterSpecs) name) 0
    then None
    else Some (Z.of_nat (count_occ string_dec (filterNames filterSpecs) name)).
Proof.
  unfold Content.GetFilterCounts.
  rewrite GetFilterCounts_fold, fold_increment_lookup, lookup_empty.
  reflexivity.
Qed.

(** ** The TIFF predictor *)

Lemma tiff_row_ok (data : list Z) (colors rowLength rows row : Z)
    (out : list Z) :
  0 <= colors <= rowLength ->
  rows * rowLength <= len data ->
  0 <= row < rows ->
  len out = rows * rowLength ->
  exists out',
    Content.tiff_row data colors rowLength row out = Ok out'
    /\ len out' = rows * rowLength.
Proof.
  intros Hcolors Hdata Hrow Hout. unfold Content.tiff_row.
  assert (Hrl : 0 <= rowLength) by lia.
  pose proof (Z.mul_nonneg_nonneg row rowLength ltac:(lia) Hrl) as H1.
  pose proof (Z.mul_nonneg_nonneg (rows - row - 1) rowLength
                ltac:(lia) Hrl) as H2.
  destruct (slice_of_ok data (row * rowLength) ((row + 1) * rowLength))
    as [rowData [-> HrowData]]; [lia | lia |]. simpl.
  assert (Hlen : len rowData = rowLength) by lia. clear HrowData.
  rewrite (window_of_ok out (row * rowLength) ((row + 1) * rowLength))
    by lia.
  simpl.
  set (resultRow := {| w_lo := row * rowLength;
                       w_hi := (row + 1) * rowLength |}).
  assert (Hwlo : 0 <= w_lo resultRow) by (simpl; lia).
  assert (Hwhi : forall b : list Z,
             len b = rows * rowLength -> w_hi resultRow <= len b)
    by (intros b Hb; simpl; lia).
  assert (Hwlen : w_len resultRow = rowLength)
    by (unfold w_len; simpl; lia).
  destruct (for_loop_from_inv (fun b => len b = rows * rowLength)
              (fun i out0 =>
                 index_at rowData i ≫= fun x => w_set resultRow out0 i x)
              (Z.to_nat colors) 0 out Hout) as [out1 [Hloop1 Hout1]].
  { intros i b Hi Hb.
    destruct (index_at_ok rowData i) as [x ->]; [lia |]. simpl.
    destruct (w_set_ok resultRow b i x) as [b' [-> Hb']];
      [assumption | auto | lia |].
    eexists; split; [reflexivity | lia]. }
  unfold for_loop. rewrite Hloop1. simpl.
  apply (for_loop_from_inv (fun b => len b = rows * rowLength));
    [assumption |].
  intros i b Hi Hb.
  destruct (index_at_ok rowData i) as [x ->]; [lia |]. simpl.
  destruct (w_get_ok resultRow b (i - colors)) as [l ->];
    [assumption | auto | lia |]. simpl.
  destruct (w_set_ok resultRow b i (wrap8 (x + l))) as [b' [-> Hb']];
    [assumption | auto | lia |].
  eexists; split; [reflexivity | lia].
Qed.

(** X7: on 8-bit samples, with a positive row length that holds at least
    one pixel, the TIFF predictor succeeds on a buffer of any length and
    returns [rows * rowLength] bytes, [rows = len data / rowLength]: the
    bytes after the last whole row are dropped, not reported. *)
Theorem applyTIFFPredictor_output_length
    (data : list Z) (columns colors rowLength : Z) :
  0 <= colors <= rowLength ->
  0 < rowLength ->
  len data <= GoString.max_int64 ->
  exists out,
    Content.applyTIFFPredictor data columns colors 8 rowLength = Ok out
    /\ len out = len data / rowLength * rowLength
    /\ len out = len data - len data mod rowLength.
Proof.
  intros Hcolors Hrl Hmax.
  set (rows := len data / rowLength).
  assert (Hlen : 0 <= len data) by (unfold len; lia).
  assert (Hrows : 0 <= rows) by (apply Z.div_pos; lia).
  assert (Hdata : rows * rowLength <= len data).
  { unfold rows. rewrite Z.mul_comm. apply Z.mul_div_le. lia. }
  assert (Hsize : 0 <= rows * rowLength)
    by (apply Z.mul_nonneg_nonneg; lia).
  unfold GoString.max_int64 in Hmax.
  unfold Content.applyTIFFPredictor. simpl negb. cbv iota.
  destruct (Z.eqb_spec rowLength 0); [lia |].
  rewrite Z.quot_div_nonneg by lia. fold rows.
  rewrite (wrap_int_small (rows * rowLength)) by lia.
  destruct (Z.ltb_spec (rows * rowLength) 0); [lia |].
  unfold for_loop.
  destruct (for_loop_from_inv (fun b => len b = rows * rowLength)
              (Content.tiff_row data colors rowLength)
              (Z.to_nat rows) 0 (repeat 0 (Z.to_nat (rows * rowLength))))
    as [out [Hout Hlenout]].
  - unfold len. rewrite repeat_length. lia.
  - intros row b Hrow Hb.
    apply (tiff_row_ok data colors rowLength rows); auto; lia.
  - exists out. repeat split; [assumption | assumption |].
    rewrite Hlenout. unfold rows.
    rewrite (Z.div_mod (len data) rowLength) at 2 by lia. lia.
Qed.

Lemma applyTIFFPredictor_output_length_witness :
  0 <= 1 <= 3 /\ 0 < 3 /\ len [10; 1; 2; 20; 3; 4; 99] <= GoString.max_int64
  /\ exists out,
       Content.applyTIFFPredictor [10; 1; 2; 20; 3; 4; 99] 3 1 8 3 = Ok out
       /\ len out = len [10; 1; 2; 20; 3; 4; 99] / 3 * 3
       /\ len out
          = len [10; 1; 2; 20; 3; 4; 99] - len [10; 1; 2; 20; 3; 4; 99] mod 3.
Proof.
  assert (H1 : 0 <= 1 <= 3) by lia.
  assert (H2 : 0 < 3) by lia.
  assert (H3 : len [10; 1; 2; 20; 3; 4; 99] <= GoString.max_int64)
    by (vm_compute; discriminate).
  exact (conj H1 (conj H2 (conj H3
           (applyTIFFPredictor_output_length [10; 1; 2; 20; 3; 4; 99] 3 1 3
              H1 H2 H3)))).
Defined.

Example applyTIFFPredictor_sample :
  Content.applyTIFFPredictor [10; 1; 2; 20; 3; 4; 99] 3 1 8 3
  = Ok [10; 11; 13; 20; 23; 27].
Proof. vm_compute. reflexivity. Qed.

(** ** Strings and digits *)

Lemma chars_app (a b : string) :
  GoString.chars (a +:+ b) = GoString.chars a ++ GoString.chars b.
Proof.
  unfold GoString.chars. induction a as [| c a IH]; simpl;
    [reflexivity | now rewrite IH].
Qed.

Lemma chars_str (l : list ascii) : GoString.chars (GoString.str l) = l.
Proof. apply list_ascii_of_string_of_list_ascii. Qed.

Lemma str_chars (s : string) : GoString.str (GoString.chars s) = s.
Proof. apply string_of_list_ascii_of_string. Qed.

Lemma digits_value_bounds (ds : list ascii) :
  forallb GoString.is_digit ds = true ->
  forall acc, 0 <= acc ->
    0 <= fold_left (fun acc c => acc * 10 + (GoString.byte_of c - 48)) ds acc
    < (acc + 1) * 10 ^ Z.of_nat (length ds).
Proof.
  induction ds as [| d ds IH]; intros Hds acc Hacc.
  - simpl. lia.
  - simpl in Hds. apply andb_true_iff in Hds as [Hd Hds].
    unfold GoString.is_digit in Hd. cbv zeta in Hd.
    apply andb_true_iff in Hd as [Hd1 Hd2].
    apply Z.leb_le in Hd1, Hd2.
    cbn [fold_left length].
    specialize (IH Hds (acc * 10 + (GoString.byte_of d - 48)) ltac:(lia)).
    rewrite Nat2Z.inj_succ, Z.pow_succ_r by lia.
    assert (0 < 10 ^ Z.of_nat (length ds)) by (apply Z.pow_pos_nonneg; lia).
    nia.
Qed.

Lemma parse_digits_bounds (ds : list ascii) (v : Z) :
  GoString.parse_digits ds = Ok v ->
  0 <= v <= GoString.max_int64 /\ v < 10 ^ Z.of_nat (length ds).
Proof.
  unfold GoString.parse_digits. destruct ds as [| d ds]; [discriminate |].
  destruct (forallb GoString.is_digit (d :: ds)) eqn:Hds; [| discriminate].
  cbv zeta.
  destruct (Z.leb_spec (GoString.digits_value (d :: ds)) GoString.max_int64);
    [| discriminate].
  intros [= <-].
  pose proof (digits_value_bounds (d :: ds) Hds 0 ltac:(lia)) as Hb.
  fold (GoString.digits_value (d :: ds)) in Hb. lia.
Qed.

(** ** The cross-reference locator: window and bounds *)

Lemma digits_fold_ge (ds : list ascii) :
  forallb GoString.is_digit ds = true ->
  forall acc, 0 <= acc ->
    acc <= fold_left (fun acc c => acc * 10 + (GoString.byte_of c - 48)) ds acc.
Proof.
  induction ds as [| d ds IH]; intros Hds acc Hacc; [simpl; lia |].
  simpl in Hds. apply andb_true_iff in Hds as [Hd Hds].
  unfold GoString.is_digit in Hd. cbv zeta in Hd.
  apply andb_true_iff in Hd as [Hd1 Hd2]. apply Z.leb_le in Hd1, Hd2.
  cbn [fold_left].
  specialize (IH Hds (acc * 10 + (GoString.byte_of d - 48)) ltac:(lia)).
  lia.
Qed.

Lemma parseUintLoop_digits (ds : list ascii) :
  forallb GoString.is_digit ds = true ->
  forall n, 0 <= n ->
    fold_left (fun acc c => acc * 10 + (GoString.byte_of c - 48)) ds n
    <= GoString.max_uint64 ->
    GoString.parseUintLoop ds n
    = (fold_left (fun acc c => acc * 10 + (GoString.byte_of c - 48)) ds n,
       None).
Proof.
  induction ds as [| d ds IH]; intros Hds n Hn Hmax; [reflexivity |].
  pose proof (digits_fold_ge (d :: ds) Hds n Hn) as Hge.
  simpl in Hds. apply andb_true_iff in Hds as [Hd Hds].
  cbn [GoString.parseUintLoop fold_left] in *. rewrite Hd.
  unfold GoString.is_digit in Hd. cbv zeta in Hd.
  apply andb_true_iff in Hd as [Hd1 Hd2]. apply Z.leb_le in Hd1, Hd2.
  pose proof (digits_fold_ge ds Hds
                (n * 10 + (GoString.byte_of d - 48)) ltac:(lia)) as Hge1.
  change (GoString.max_uint64 / 10 + 1) with 1844674407370955162.
  unfold GoString.max_uint64 in *.
  destruct (Z.leb_spec 1844674407370955162 n); [lia |].
  cbv zeta.
  destruct (Z.ltb_spec 18446744073709551615
              (n * 10 + (GoString.byte_of d - 48))); [lia |].
  apply IH; [assumption | lia | assumption].
Qed.

(** The value [AtoiValue] gives is the number [Atoi] returns when [Atoi]
    returns one. *)
Lemma AtoiValue_Atoi (s : string) (n : Z) :
  GoString.Atoi s = Ok n -> GoString.AtoiPair s = (n, None).
Proof.
  unfold GoString.Atoi, GoString.AtoiPair.
  assert (Hdigits : forall ds v,
            GoString.parse_digits ds = Ok v ->
            GoString.ParseUint ds = (v, None) /\ 0 <= v <= GoString.max_int64).
  { intros ds v H. pose proof (parse_digits_bounds ds v H) as [Hv _].
    split; [| assumption]. unfold GoString.parse_digits in H.
    destruct ds as [| d ds]; [discriminate |].
    destruct (forallb GoString.is_digit (d :: ds)) eqn:Hds; [| discriminate].
    cbv zeta in H.
    destruct (GoString.digits_value (d :: ds) <=? GoString.max_int64);
      [| discriminate].
    injection H as <-. unfold GoString.ParseUint.
    apply parseUintLoop_digits; [assumption | lia |].
    fold (GoString.digits_value (d :: ds)).
    unfold GoString.max_int64, GoString.max_uint64 in *. lia. }
  assert (Hplain : forall ds v,
            GoString.parse_digits ds = Ok v ->
            match GoString.ParseUint ds with
            | (_, Some GoString.ErrSyntax) => (0, Some GoString.ErrSyntax)
            | (un, _) =>
                if negb false && (- GoString.min_int64 <=? un)
                then (GoString.max_int64, Some GoString.ErrRange)
                else if false && (- GoString.min_int64 <? un)
                     then (GoString.min_int64, Some GoString.ErrRange)
                     else (un, None)
            end = (v, None)).
  { intros ds v H. destruct (Hdigits ds v H) as [-> Hv].
    cbn [negb andb].
    destruct (Z.leb_spec (- GoString.min_int64) v); [| reflexivity].
    unfold GoString.min_int64, GoString.max_int64 in *. lia. }
  destruct (GoString.chars s) as [| c t]; [discriminate |].
  destruct (Ascii.eqb_spec c "+") as [-> | Hplus].
  - cbn [Ascii.eqb Bool.eqb orb andb]. cbv zeta. apply Hplain.
  - destruct (Ascii.eqb_spec c "-") as [-> | Hminus].
    + cbn [Ascii.eqb Bool.eqb orb andb]. cbv zeta.
      destruct t as [| d ds]; [discriminate |].
      destruct (forallb GoString.is_digit (d :: ds)) eqn:Hds;
        [| discriminate].
      destruct (Z.leb_spec (GoString.digits_value (d :: ds))
                  (- GoString.min_int64)) as [Hle | Hgt];
        [| discriminate].
      intros [= <-]. unfold GoString.ParseUint.
      pose proof (digits_value_bounds (d :: ds) Hds 0 ltac:(lia)) as [H0 _].
      fold (GoString.digits_value (d :: ds)) in H0.
      rewrite parseUintLoop_digits; [| assumption | lia |].
      * fold (GoString.digits_value (d :: ds)). cbn [negb andb].
        destruct (Z.ltb_spec (- GoString.min_int64)
                    (GoString.digits_value (d :: ds))); [lia | reflexivity].
      * fold (GoString.digits_value (d :: ds)).
        unfold GoString.min_int64, GoString.max_uint64 in *. lia.
    + cbn [orb]. cbv zeta. intros H.
      assert (Hother : GoString.parse_digits (c :: t) = Ok n).
      { revert H. clear -Hplus Hminus.
        destruct c as [[] [] [] [] [] [] [] []]; try exact (fun H => H);
          congruence. }
      apply Hplain in Hother. exact Hother.
Qed.

Example AtoiValue_samples :
  GoString.AtoiValue "12" = 12
  /\ GoString.AtoiValue "-7" = -7
  /\ GoString.AtoiValue "1x" = 0
  /\ GoString.AtoiValue "99999999999999999999" = GoString.max_int64
  /\ GoString.AtoiValue "-99999999999999999999" = GoString.min_int64
  /\ GoString.AtoiValue "99999999999999999999x" = GoString.max_int64.
Proof. repeat split; vm_compute; reflexivity. Qed.

(** X8: an offset returned by [findLastXRefOffset] is not negative and
    fits a signed 64-bit integer. *)
Theorem findLastXRefOffset_range (file : string) (fileSize offset : Z) :
  Document.findLastXRefOffset file fileSize = Ok offset ->
  0 <= offset <= GoString.max_int64.
Proof.
  unfold Document.findLastXRefOffset. cbv zeta.
  destruct (_ <? 0); [discriminate |].
  destruct (_ && _); [discriminate |].
  destruct (Document.find_startxref _) as [d |]; [| discriminate].
  destruct (GoString.parse_digits d) as [v | |] eqn:Hv; try discriminate.
  intros [= <-]. apply (parse_digits_bounds d v Hv).
Qed.

Lemma findLastXRefOffset_range_witness :
  Document.findLastXRefOffset updated_file
    (len (GoString.chars updated_file)) = Ok 52
  /\ 0 <= 52 <= GoString.max_int64.
Proof.
  assert (H : Document.findLastXRefOffset updated_file
                (len (GoString.chars updated_file)) = Ok 52)
    by (vm_compute; reflexivity).
  exact (conj H (findLastXRefOffset_range updated_file _ 52 H)).
Defined.

(** X9: only the last 1024 bytes of a file are searched: bytes put in
    front of a file of 1024 bytes or more do not change the answer. *)
Theorem findLastXRefOffset_trailing_window (front file : string) :
  1024 <= len (GoString.chars file) ->
  Document.findLastXRefOffset (front +:+ file)
    (len (GoString.chars (front +:+ file)))
  = Document.findLastXRefOffset file (len (GoString.chars file)).
Proof.
  intros Hlen.
  assert (Hw : Document.trailing_window (front +:+ file)
                 (len (GoString.chars (front +:+ file)))
               = Document.trailing_window file (len (GoString.chars file))).
  { unfold Document.trailing_window. rewrite chars_app.
    unfold len in *. rewrite length_app.
    destruct (Z.ltb_spec (Z.of_nat (length (GoString.chars front)
                                    + length (GoString.chars file))) 1024);
      [lia |].
    destruct (Z.ltb_spec (Z.of_nat (length (GoString.chars file))) 1024);
      [lia |].
    f_equal. rewrite skipn_app.
    rewrite (skipn_all2 (GoString.chars front)) by lia. simpl.
    f_equal. lia. }
  unfold Document.findLastXRefOffset. rewrite Hw.
  rewrite chars_app. unfold len in *. rewrite length_app.
  destruct (Z.ltb_spec (Z.of_nat (length (GoString.chars front)
                                  + length (GoString.chars file))) 1024);
    [lia |].
  destruct (Z.ltb_spec (Z.of_nat (length (GoString.chars file))) 1024);
    [lia |].
  reflexivity.
Qed.

Lemma findLastXRefOffset_trailing_window_witness :
  1024 <= len (GoString.chars blank_tail_file)
  /\ Document.findLastXRefOffset ("startxref 7 " +:+ blank_tail_file)
       (len (GoString.chars ("startxref 7 " +:+ blank_tail_file)))
     = Document.findLastXRefOffset blank_tail_file
         (len (GoString.chars blank_tail_file)).
Proof.
  assert (H : 1024 <= len (GoString.chars blank_tail_file))
    by (vm_compute; discriminate).
  exact (conj H
           (findLastXRefOffset_trailing_window "startxref 7 "
              blank_tail_file H)).
Defined.

Example findLastXRefOffset_front_ignored :
  Document.findLastXRefOffset ("startxref 7 " +:+ blank_tail_file)
    (len (GoString.chars ("startxref 7 " +:+ blank_tail_file)))
  = Ok 9.
Proof. vm_compute. reflexivity. Qed.

(** ** Entries of the cross-reference table *)

Lemma firstn_length_eq {A : Type} (n : nat) (l : list A) :
  length (firstn n l) = n -> (n <= length l)%nat.
Proof. rewrite length_firstn. lia. Qed.

(** X10: a line is taken as an entry only when it is exactly 18 bytes
    long, and the entry stored has an offset in [0, 10^10) and a
    generation in [0, 10^5); the same line followed by a blank is not
    an entry. *)
Theorem parseXRefEntry_accepts (entry : string) (e : Document.PDFXRefEntry) :
  Document.parseXRefEntry entry = Some e ->
  length (GoString.chars entry) = 18%nat
  /\ 0 <= Document.Offset e < 10 ^ 10
  /\ 0 <= Document.XRefGeneration e < 10 ^ 5
  /\ Document.parseXRefEntry (entry +:+ " ") = None.
Proof.
  unfold Document.parseXRefEntry.
  destruct (Document.xrefEntryMatch entry) as [[[d1 d2] k] |] eqn:Hm;
    [| discriminate].
  destruct (GoString.parse_digits d1) as [offset | |] eqn:Ho;
    try discriminate.
  destruct (GoString.parse_digits d2) as [gen | |] eqn:Hg;
    try discriminate.
  intros [= <-]. simpl.
  unfold Document.xrefEntryMatch in Hm. cbv zeta in Hm.
  destruct (skipn 10 (GoString.chars entry)) as [| sp1 r2] eqn:Hr1;
    [discriminate |].
  destruct (skipn 5 r2) as [| sp2 [| k' [| x r3]]] eqn:Hr2;
    try discriminate.
  destruct (_ && _) eqn:Hcond in Hm; [| discriminate].
  injection Hm as <- <- <-.
  repeat (apply andb_true_iff in Hcond as [Hcond ?]).
  apply Nat.eqb_eq in Hcond.
  match goal with H : Nat.eqb (length (firstn 5 r2)) 5 = true |- _ =>
    apply Nat.eqb_eq in H; rename H into Hd2 end.
  pose proof (firstn_length_eq _ _ Hcond) as Hl1.
  pose proof (firstn_length_eq _ _ Hd2) as Hl2.
  assert (Hlen1 : length (skipn 10 (GoString.chars entry))
                  = (length (GoString.chars entry) - 10)%nat)
    by apply length_skipn.
  assert (Hlen2 : length (skipn 5 r2) = (length r2 - 5)%nat)
    by apply length_skipn.
  rewrite Hr1 in Hlen1. rewrite Hr2 in Hlen2. simpl in Hlen1, Hlen2.
  assert (Hlen : length (GoString.chars entry) = 18%nat) by lia.
  split; [assumption |].
  pose proof (parse_digits_bounds _ _ Ho) as [Hob Hop].
  pose proof (parse_digits_bounds _ _ Hg) as [Hgb Hgp].
  rewrite Hcond in Hop. rewrite Hd2 in Hgp.
  split; [lia |]. split; [lia |].
  unfold Document.xrefEntryMatch. cbv zeta. rewrite chars_app.
  replace (skipn 10 (GoString.chars entry ++ GoString.chars " "))
    with (sp1 :: r2 ++ GoString.chars " ")
    by (rewrite skipn_app, Hr1; replace (10 - length (GoString.chars entry))%nat
          with 0%nat by lia; reflexivity).
  replace (skipn 5 (r2 ++ GoString.chars " "))
    with ([sp2; k'] ++ GoString.chars " ")
    by (rewrite skipn_app, Hr2; replace (5 - length r2)%nat
          with 0%nat by lia; reflexivity).
  reflexivity.
Qed.

Lemma parseXRefEntry_accepts_witness :
  Document.parseXRefEntry "0000000017 00000 n"
  = Some {| Document.Offset := 17;
            Document.XRefGeneration := 0;
            Document.InUse := true |}
  /\ length (GoString.chars "0000000017 00000 n") = 18%nat
  /\ 0 <= 17 < 10 ^ 10
  /\ 0 <= 0 < 10 ^ 5
  /\ Document.parseXRefEntry ("0000000017 00000 n" +:+ " ") = None.
Proof.
  assert (H : Document.parseXRefEntry "0000000017 00000 n"
              = Some {| Document.Offset := 17;
                        Document.XRefGeneration := 0;
                        Document.InUse := true |})
    by (vm_compute; reflexivity).
  exact (conj H (parseXRefEntry_accepts "0000000017 00000 n" _ H)).
Defined.

(** ** Object bodies and stream bytes *)

Lemma has_prefix_firstn (sub l : list ascii) (n : nat) :
  GoString.has_prefix sub (firstn n l) = true ->
  GoString.has_prefix sub l = true.
Proof.
  revert l n. induction sub as [| a sub IH]; intros l n; [reflexivity |].
  destruct n as [| n], l as [| b l]; simpl; try discriminate.
  intros H. apply andb_true_iff in H as [H1 H2].
  rewrite H1. simpl. now apply (IH l n).
Qed.

Lemma index_of_first (sub l : list ascii) (e : nat) :
  GoString.index_of sub l = Some e ->
  forall j, (j < e)%nat -> GoString.has_prefix sub (skipn j l) = false.
Proof.
  revert e. induction l as [| c l IH]; intros e; simpl.
  - destruct (GoString.has_prefix sub []); [| discriminate].
    intros [= <-] j Hj. lia.
  - destruct (GoString.has_prefix sub (c :: l)) eqn:Hp.
    + intros [= <-] j Hj. lia.
    + destruct (GoString.index_of sub l) as [e' |]; [| discriminate].
      intros [= <-] [| j] Hj; [assumption |].
      simpl. apply (IH e' eq_refl). lia.
Qed.

Lemma index_of_none (sub l : list ascii) :
  (forall j, GoString.has_prefix sub (skipn j l) = false) ->
  GoString.index_of sub l = None.
Proof.
  induction l as [| c l IH]; intros H; simpl.
  - pose proof (H 0%nat) as H0. simpl in H0. now rewrite H0.
  - pose proof (H 0%nat) as H0. simpl in H0. rewrite H0.
    rewrite IH; [reflexivity |].
    intros j. apply (H (Datatypes.S j)).
Qed.

Lemma index_of_infix (sub l : list ascii) (e lo n : nat) :
  sub <> [] ->
  GoString.index_of sub l = Some e ->
  (lo + n <= e)%nat ->
  GoString.index_of sub (firstn n (skipn lo l)) = None.
Proof.
  intros Hsub He Hn. apply index_of_none. intros j.
  destruct (GoString.has_prefix sub (skipn j (firstn n (skipn lo l))))
    eqn:Hp; [| reflexivity].
  rewrite skipn_firstn_comm in Hp.
  destruct (Nat.le_gt_cases n j) as [Hle | Hlt].
  - replace (n - j)%nat with 0%nat in Hp by lia. simpl in Hp.
    destruct sub; [congruence | discriminate].
  - apply has_prefix_firstn in Hp. rewrite skipn_skipn in Hp.
    rewrite (index_of_first sub l e He (j + lo)) in Hp by lia.
    discriminate.
Qed.

(** X11: the content kept for an object never contains the token
    [endobj]. *)
Theorem objectBody_without_endobj (lines : list string) :
  GoString.Contains (Document.objectBody lines) "endobj" = false.
Proof.
  unfold Document.objectBody, GoString.Contains. cbv zeta.
  destruct (GoString.index_of (GoString.chars "endobj")
              (GoString.chars (Document.scanObject lines false "")))
    as [idx |] eqn:Hidx.
  - rewrite chars_str.
    pose proof (index_of_infix (GoString.chars "endobj")
                  (GoString.chars (Document.scanObject lines false ""))
                  idx 0 idx ltac:(discriminate) Hidx ltac:(lia)) as Hnone.
    rewrite skipn_O in Hnone. now rewrite Hnone.
  - now rewrite Hidx.
Qed.

(** X12: the bytes taken as the stream of an object never contain the
    token [endstream]. *)
Theorem detectStream_without_endstream (contentBytes stream : string) :
  Document.detectStream contentBytes = Ok (Some stream) ->
  GoString.Contains stream "endstream" = false.
Proof.
  unfold Document.detectStream.
  destruct (GoString.Contains contentBytes "stream"); [| discriminate].
  destruct (GoString.Contains contentBytes "endstream") eqn:Hc;
    [| discriminate].
  simpl andb. cbv iota.
  assert (He : exists e,
             GoString.index_of (GoString.chars "endstream")
               (GoString.chars contentBytes) = Some e).
  { unfold GoString.Contains in Hc.
    destruct (GoString.index_of _ _) as [e |]; [eauto | discriminate]. }
  destruct He as [e He].
  assert (Hidx : GoString.Index contentBytes "endstream" = Z.of_nat e)
    by (unfold GoString.Index; now rewrite He).
  rewrite Hidx.
  assert (Hstart : 5 <= GoString.Index contentBytes "stream" + 6).
  { unfold GoString.Index.
    destruct (GoString.index_of (GoString.chars "stream")
                (GoString.chars contentBytes)); lia. }
  set (s0 := GoString.Index contentBytes "stream" + 6) in *.
  assert (Hcut : forall s1, 0 <= s1 ->
            (if s1 <? Z.of_nat e
             then Ok (Some (GoString.str
                    (firstn (Z.to_nat (Z.of_nat e - s1))
                       (skipn (Z.to_nat s1) (GoString.chars contentBytes)))))
             else Ok None) = Ok (Some stream) ->
            GoString.Contains stream "endstream" = false).
  { intros s1 Hs1. destruct (Z.ltb_spec s1 (Z.of_nat e)); [| discriminate].
    intros [= <-]. unfold GoString.Contains. rewrite chars_str.
    rewrite (index_of_infix _ _ e); [reflexivity | | exact He | lia].
    discriminate. }
  destruct (Document.byte_at contentBytes s0) as [c0 | |]; simpl;
    try discriminate.
  destruct (Ascii.eqb c0 "013").
  - destruct (Document.byte_at contentBytes (s0 + 1)) as [c1 | |]; simpl;
      try discriminate.
    destruct (Ascii.eqb c1 "010"); simpl; apply Hcut; lia.
  - destruct (Ascii.eqb c0 "010"); simpl; apply Hcut; lia.
Qed.

Lemma detectStream_without_endstream_witness :
  Document.detectStream
    (unlines ["<< /Length 5 >>"; "stream"; "hello"; "endstream"])
  = Ok (Some (unlines ["hello"]))
  /\ GoString.Contains (unlines ["hello"]) "endstream" = false.
Proof.
  assert (H : Document.detectStream
                (unlines ["<< /Length 5 >>"; "stream"; "hello"; "endstream"])
              = Ok (Some (unlines ["hello"])))
    by (vm_compute; reflexivity).
  exact (conj H (detectStream_without_endstream _ _ H)).
Defined.

Lemma detectStream_in_bounds_witness :
  GoString.Index
    (unlines ["<< /Length 5 >>"; "stream"; "hello"; "endstream"]) "stream"
  + 8
  <= len (GoString.chars
            (unlines ["<< /Length 5 >>"; "stream"; "hello"; "endstream"]))
  /\ exists found,
       Document.detectStream
         (unlines ["<< /Length 5 >>"; "stream"; "hello"; "endstream"])
       = Ok found.
Proof.
  assert (H : GoString.Index
                (unlines ["<< /Length 5 >>"; "stream"; "hello"; "endstream"])
                "stream" + 8
              <= len (GoString.chars
                        (unlines ["<< /Length 5 >>"; "stream"; "hello";
                                  "endstream"])))
    by (vm_compute; discriminate).
  exact (conj H (detectStream_in_bounds _ H)).
Defined.

(** ** The page-tree walk *)

Lemma walk_extends_refl (doc : Document.PDFDocument) (pageCounter : Z) :
  walk_extends doc pageCounter (doc, pageCounter).
Proof.
  unfold walk_extends. repeat split. exists [].
  rewrite app_nil_r. repeat split. unfold len. simpl. lia.
Qed.

Lemma walk_extends_trans (doc d1 d2 : Document.PDFDocument) (c c1 c2 : Z) :
  walk_extends doc c (d1, c1) ->
  walk_extends d1 c1 (d2, c2) ->
  walk_extends doc c (d2, c2).
Proof.
  unfold walk_extends.
  intros (Ho1 & Ht1 & Hf1 & Hr1 & new1 & Hp1 & Hn1 & Hc1)
         (Ho2 & Ht2 & Hf2 & Hr2 & new2 & Hp2 & Hn2 & Hc2).
  repeat split; try congruence.
  exists (new1 ++ new2). repeat split.
  - rewrite Hp2, Hp1. now rewrite app_assoc.
  - rewrite map_app, Hn1, Hn2. unfold len. rewrite length_app.
    rewrite Nat2Z.inj_add, seqZ_app by lia. subst c1. reflexivity.
  - unfold len in *. rewrite length_app. lia.
Qed.

Lemma processPageTree_walk_extends (fuel : nat) :
  forall (doc : Document.PDFDocument) (objNum pageCounter : Z)
         (doc' : Document.PDFDocument) (pageCounter' : Z),
    Document.processPageTree fuel doc objNum pageCounter
    = Ok (doc', pageCounter') ->
    walk_extends doc pageCounter (doc', pageCounter').
Proof.
  induction fuel as [| fuel IH]; intros doc objNum c doc' c'; simpl;
    [discriminate |].
  destruct (Document.Objects doc !! objNum) as [obj |];
    [| intros [= <- <-]; apply walk_extends_refl].
  destruct (Document.Dictionary obj !! "Type") as [[nodeType | ?] |];
    try (intros [= <- <-]; apply walk_extends_refl).
  destruct (String.eqb nodeType "/Pages").
  - destruct (Document.Dictionary obj !! "Kids") as [kidsRef |];
      [| intros [= <- <-]; apply walk_extends_refl].
    destruct (as_string kidsRef) as [kids | |]; simpl; try discriminate.
    generalize (Utils.ParseArray kids). intros kidRefs.
    assert (Hacc : forall d p,
               Ok (doc, c) = Ok (d, p) -> walk_extends doc c (d, p))
      by (intros d p [= <- <-]; apply walk_extends_refl).
    revert Hacc. generalize (@Ok (Document.PDFDocument * Z) (doc, c)).
    induction kidRefs as [| kidRef kidRefs IHk]; intros acc Hacc; simpl.
    + intros H. now apply Hacc.
    + apply IHk. intros d p.
      destruct acc as [[d0 p0] | |]; simpl; try discriminate.
      specialize (Hacc d0 p0 eq_refl).
      destruct (Utils.ExtractReference kidRef) as [kidObjNum | |].
      * intros H. apply IH in H.
        now apply (walk_extends_trans doc d0 d c p0 p).
      * intros [= <- <-]. assumption.
      * intros [= <- <-]. assumption.
  - destruct (String.eqb nodeType "/Page");
      [| intros [= <- <-]; apply walk_extends_refl].
    destruct (Document.mediaBoxBlock obj) as [[] | |]; simpl;
      try discriminate.
    destruct (Document.resourcesBlock obj) as [[] | |]; simpl;
      try discriminate.
    intros [= <- <-]. unfold walk_extends. simpl. repeat split.
    eexists [_]. repeat split.
Qed.

(** X13: a walk of the page tree that returns leaves the objects, the
    fonts and the chunks of the document as they were and adds pages at
    the end of the page list; the pages added are numbered consecutively
    from the page counter, and the counter returned is the next number. *)
Theorem processPageTree_numbers_pages
    (fuel : nat) (doc : Document.PDFDocument) (objNum pageCounter : Z)
    (doc' : Document.PDFDocument) (pageCounter' : Z) :
  Document.processPageTree fuel doc objNum pageCounter
  = Ok (doc', pageCounter') ->
  walk_extends doc pageCounter (doc', pageCounter').
Proof. apply processPageTree_walk_extends. Qed.

Lemma processPageTree_numbers_pages_witness :
  Document.processPageTree 2 kids_document 2 1 = Ok (kids_document_walked, 3)
  /\ walk_extends kids_document 1 (kids_document_walked, 3).
Proof.
  assert (H : Document.processPageTree 2 kids_document 2 1
              = Ok (kids_document_walked, 3))
    by (vm_compute; reflexivity).
  exact (conj H (processPageTree_numbers_pages 2 kids_document 2 1
                   kids_document_walked 3 H)).
Defined.

(** X14: after a walk that starts with no page and the counter 1,
    [GetPage] and [GetPageText] answer for the numbers 1 to
    [GetPageCount] with the page that carries that number, and refuse
    every other number. *)
Theorem GetPage_after_walk
    (fuel : nat) (doc : Document.PDFDocument) (objNum : Z)
    (doc' : Document.PDFDocument) (pageCounter' : Z) :
  Document.processPageTree fuel doc objNum 1 = Ok (doc', pageCounter') ->
  Document.Pages doc = [] ->
  Document.GetPageCount doc' = pageCounter' - 1
  /\ forall n,
       (1 <= n <= Document.GetPageCount doc' ->
        exists page,
          Document.GetPage doc' n = Some page
          /\ Document.PageNumber page = n
          /\ Document.GetPageText doc' n = Ok (Document.Text page))
       /\ (n < 1 \/ Document.GetPageCount doc' < n ->
           Document.GetPage doc' n = None
           /\ Document.GetPageText doc' n = Err "page number out of range").
Proof.
  intros Hwalk Hempty.
  apply processPageTree_walk_extends in Hwalk.
  destruct Hwalk as (_ & _ & _ & _ & new & Hpages & Hnum & Hc).
  rewrite Hempty in Hpages. simpl in Hpages.
  unfold Document.GetPageCount, Document.GetPage, Document.GetPageText.
  rewrite Hpages. split; [lia |].
  intros n. split.
  - intros Hn.
    destruct (Z.ltb_spec n 1); [lia |].
    destruct (Z.ltb_spec (len new) n); [lia |]. simpl.
    destruct (lookup_lt_is_Some_2 new (Z.to_nat (n - 1))) as [page Hpage];
      [unfold len in *; lia |].
    rewrite Hpage. exists page. repeat split.
    assert (Hk : map Document.PageNumber new !! Z.to_nat (n - 1)
                 = Some (Document.PageNumber page))
      by (rewrite list_lookup_fmap, Hpage; reflexivity).
    rewrite Hnum in Hk. apply lookup_seqZ in Hk. lia.
  - intros Hn.
    destruct (Z.ltb_spec n 1), (Z.ltb_spec (len new) n); simpl;
      try (split; reflexivity); lia.
Qed.

Lemma GetPage_after_walk_witness :
  Document.processPageTree 2 kids_document 2 1 = Ok (kids_document_walked, 3)
  /\ Document.Pages kids_document = []
  /\ Document.GetPageCount kids_document_walked = 3 - 1
  /\ forall n,
       (1 <= n <= Document.GetPageCount kids_document_walked ->
        exists page,
          Document.GetPage kids_document_walked n = Some page
          /\ Document.PageNumber page = n
          /\ Document.GetPageText kids_document_walked n
             = Ok (Document.Text page))
       /\ (n < 1 \/ Document.GetPageCount kids_document_walked < n ->
           Document.GetPage kids_document_walked n = None
           /\ Document.GetPageText kids_document_walked n
              = Err "page number out of range").
Proof.
  assert (H1 : Document.processPageTree 2 kids_document 2 1
               = Ok (kids_document_walked, 3))
    by (vm_compute; reflexivity).
  assert (H2 : Document.Pages kids_document = []) by reflexivity.
  exact (conj H1 (conj H2
           (GetPage_after_walk 2 kids_document 2 kids_document_walked 3
              H1 H2))).
Defined.

(** ** The header of a file *)

Lemma length_str (l : list ascii) :
  String.length (GoString.str l) = length l.
Proof.
  unfold GoString.str. induction l as [| c l IH]; simpl;
    [reflexivity | now rewrite IH].
Qed.

(** X15: [identifyPDFVersion] accepts exactly the files that begin with
    [%PDF-]; the version it stores is always three bytes long, the three
    bytes that follow the marker, filled with NUL bytes when the file is
    shorter than 8 bytes. *)
Theorem identifyPDFVersion_accepts (file : string) :
  (GoString.HasPrefix file "%PDF-" = true ->
   exists version,
     Document.identifyPDFVersion file = Ok version
     /\ String.length version = 3%nat
     /\ GoString.chars version
        = firstn 3 (skipn 5 (GoString.chars file) ++ repeat zero 3))
  /\ (GoString.HasPrefix file "%PDF-" = false ->
      exists msg, Document.identifyPDFVersion file = Err msg).
Proof.
  unfold GoString.HasPrefix, Document.identifyPDFVersion.
  destruct (GoString.chars file) as [| c1 [| c2 [| c3 [| c4 [| c5 rest]]]]];
    cbv zeta; cbn -[Ascii.eqb];
    try solve
      [ split; [intros H; repeat (apply andb_true_iff in H as [? H]);
                discriminate |];
        intros _;
        repeat match goal with
               | |- context [Ascii.eqb ?a ?b] =>
                   is_var b; destruct (Ascii.eqb a b)
               end; simpl; eauto ].
  destruct ((Ascii.eqb "%" c1)
            && ((Ascii.eqb "P" c2)
                && ((Ascii.eqb "D" c3)
                    && ((Ascii.eqb "F" c4) && ((Ascii.eqb "-" c5) && true)))));
    split; try discriminate; intros _; [| eauto].
  eexists. split; [reflexivity |].
  rewrite chars_str.
  destruct rest as [| r1 [| r2 [| r3 rest]]]; split; reflexivity.
Qed.

Example identifyPDFVersion_sample :
  Document.identifyPDFVersion updated_file = Ok "1.4".
Proof. vm_compute. reflexivity. Qed.

(** ** Arrays *)

Lemma flush_nonempty (items : list string) (cur : list ascii) :
  Forall (fun item => item <> "") items ->
  Forall (fun item => item <> "") (Utils.flush items cur).
Proof.
  intros H. unfold Utils.flush. destruct cur as [| c cur]; [assumption |].
  apply Forall_app. split; [assumption |].
  constructor; [| constructor]. discriminate.
Qed.

Lemma parseArrayLoop_nonempty (n : nat) :
  forall content items cur nestedLevel dictLevel,
    (length content <= n)%nat ->
    Forall (fun item => item <> "") items ->
    Forall (fun item => item <> "")
      (Utils.parseArrayLoop content items cur nestedLevel dictLevel).
Proof.
  induction n as [| n IH]; intros content items cur nl dl Hn Hitems.
  - destruct content; [| simpl in Hn; lia]. simpl.
    now apply flush_nonempty.
  - destruct content as [| c rest]; [simpl; now apply flush_nonempty |].
    simpl in Hn. simpl.
    destruct (Ascii.eqb c "["); [apply IH; [lia | assumption] |].
    destruct (Ascii.eqb c "]"); [apply IH; [lia | assumption] |].
    destruct rest as [| c2 rest'].
    + destruct (_ && _); apply IH; simpl; try lia; try assumption.
      now apply flush_nonempty.
    + simpl in Hn.
      destruct (Ascii.eqb c "<" && Ascii.eqb c2 "<");
        [apply IH; [lia | assumption] |].
      destruct (Ascii.eqb c ">" && Ascii.eqb c2 ">");
        [apply IH; [lia | assumption] |].
      destruct (_ && _); apply IH; simpl; try lia; try assumption.
      now apply flush_nonempty.
Qed.

(** X16: no item returned by [ParseArray] is the empty string, whatever
    the text given. *)
Theorem ParseArray_items_nonempty (arrayStr : string) :
  Forall (fun item => item <> "") (Utils.ParseArray arrayStr).
Proof.
  unfold Utils.ParseArray.
  destruct (_ || _); [constructor |].
  apply (parseArrayLoop_nonempty _ _ _ _ _ _ (le_n _)). constructor.
Qed.

(** ** Flat arrays of references *)

Lemma is_space_plain (c : ascii) :
  plain_char c = true -> Utils.is_ws c = false -> GoString.is_space c = false.
Proof.
  destruct c as [[] [] [] [] [] [] [] []]; vm_compute; intros; congruence.
Qed.

Lemma plain_char_brackets (c : ascii) :
  plain_char c = true ->
  Ascii.eqb c "[" = false /\ Ascii.eqb c "]" = false
  /\ Ascii.eqb c "<" = false /\ Ascii.eqb c ">" = false.
Proof.
  unfold plain_char. intros H. apply negb_true_iff in H.
  repeat (apply orb_false_iff in H as [H ?]). repeat split; assumption.
Qed.

Lemma flush_no_space (items : list string) (cur : list ascii) :
  Forall (fun item => no_space (GoString.chars item) = true) items ->
  no_space cur = true ->
  Forall (fun item => no_space (GoString.chars item) = true)
    (Utils.flush items cur).
Proof.
  intros Hitems Hcur. unfold Utils.flush.
  destruct cur as [| c cur]; [assumption |].
  apply Forall_app. split; [assumption |].
  constructor; [| constructor]. now rewrite chars_str.
Qed.

Lemma parseArrayLoop_plain (content : list ascii) :
  forallb plain_char content = true ->
  forall items cur,
    Forall (fun item => no_space (GoString.chars item) = true) items ->
    no_space cur = true ->
    Forall (fun item => no_space (GoString.chars item) = true)
      (Utils.parseArrayLoop content items cur 0 0).
Proof.
  induction content as [| c rest IH]; intros Hplain items cur Hitems Hcur.
  - simpl. now apply flush_no_space.
  - simpl in Hplain. apply andb_true_iff in Hplain as [Hc Hrest].
    destruct (plain_char_brackets c Hc) as (E1 & E2 & E3 & E4).
    assert (Hstep :
      Forall (fun item => no_space (GoString.chars item) = true)
        (if Utils.is_ws c && (0 =? 0) && (0 =? 0)
         then Utils.parseArrayLoop rest (Utils.flush items cur) [] 0 0
         else Utils.parseArrayLoop rest items (cur ++ [c]) 0 0)).
    { destruct (Utils.is_ws c) eqn:Ews; cbn [andb Z.eqb].
      - apply IH; [assumption | now apply flush_no_space | reflexivity].
      - apply IH; [assumption | assumption |].
        unfold no_space in *. rewrite forallb_app, Hcur. simpl.
        now rewrite (is_space_plain c Hc Ews). }
    simpl. rewrite E1, E2.
    destruct rest as [| c2 rest']; [exact Hstep |].
    rewrite E3, E4. exact Hstep.
Qed.

Lemma span_no_space (p : ascii -> bool) (s a b : list ascii) :
  GoString.span p s = (a, b) -> no_space s = true -> no_space b = true.
Proof.
  revert a b. induction s as [| c s IH]; intros a b Hspan Hs.
  - simpl in Hspan. now inversion Hspan.
  - simpl in Hspan. destruct (p c).
    + destruct (GoString.span p s) as [a' b'] eqn:E. inversion Hspan; subst.
      simpl in Hs. apply andb_true_iff in Hs as [_ Hs]. now apply (IH a').
    + now inversion Hspan; subst.
Qed.

Lemma match_ref_here_no_space (s : list ascii) :
  no_space s = true -> Utils.match_ref_here s = None.
Proof.
  intros Hs. unfold Utils.match_ref_here.
  destruct (GoString.span GoString.is_digit s) as [d1 r1] eqn:E1.
  pose proof (span_no_space _ _ _ _ E1 Hs) as Hr1.
  assert (E2 : GoString.span GoString.is_space r1 = ([], r1)).
  { destruct r1 as [| c r1']; [reflexivity |].
    simpl in Hr1. apply andb_true_iff in Hr1 as [Hc _].
    apply negb_true_iff in Hc. simpl. now rewrite Hc. }
  rewrite E2.
  destruct (GoString.span GoString.is_digit r1) as [d2 r3].
  destruct (GoString.span GoString.is_space r3) as [w2 r4].
  now destruct d1.
Qed.

Lemma find_ref_no_space (s : list ascii) :
  no_space s = true -> Utils.find_ref s = None.
Proof.
  induction s as [| c s IH]; intros Hs.
  - reflexivity.
  - cbn [Utils.find_ref]. rewrite (match_ref_here_no_space _ Hs).
    simpl in Hs. apply andb_true_iff in Hs as [_ Hs]. now apply IH.
Qed.

Lemma fold_appendContent_no_space (doc : Document.PDFDocument)
    (items : list string) (allContents : list Z) :
  Forall (fun item => no_space (GoString.chars item) = true) items ->
  fold_left (Document.appendContent doc) items allContents = allContents.
Proof.
  intros H. revert allContents.
  induction H as [| item items Hitem _ IH]; intros allContents;
    [reflexivity |].
  cbn [fold_left]. unfold Document.appendContent at 2.
  unfold Utils.ExtractReference. rewrite (find_ref_no_space _ Hitem).
  apply IH.
Qed.

Lemma chars_wrapped (o c : ascii) (body : string) :
  GoString.chars (String o "" +:+ body +:+ String c "")
  = o :: GoString.chars body ++ [c].
Proof. now rewrite !chars_app. Qed.

Lemma body_of_wrapped (o c : ascii) (body : string) :
  removelast (tl (GoString.chars (String o "" +:+ body +:+ String c "")))
  = GoString.chars body.
Proof. rewrite chars_wrapped. cbn [tl]. apply removelast_last. Qed.

Lemma HasPrefix_wrapped (o c : ascii) (body : string) :
  GoString.HasPrefix (String o "" +:+ body +:+ String c "") (String o "")
  = true.
Proof.
  unfold GoString.HasPrefix. rewrite chars_wrapped. simpl.
  now rewrite Ascii.eqb_refl.
Qed.

Lemma HasSuffix_wrapped (o c : ascii) (body : string) :
  GoString.HasSuffix (String o "" +:+ body +:+ String c "") (String c "")
  = true.
Proof.
  unfold GoString.HasSuffix. rewrite chars_wrapped.
  change (o :: GoString.chars body ++ [c])
    with ([o] ++ GoString.chars body ++ [c]).
  rewrite !rev_app_distr. simpl. now rewrite Ascii.eqb_refl.
Qed.

(** X17: a [/Contents] array written without nested brackets, such as
    [[4 0 R 5 0 R]], gives the page no content: [ParseArray] cuts it at
    every blank, no item is a reference any more, and the loop over the
    items appends nothing. *)
Theorem pageContents_flat_array
    (doc : Document.PDFDocument) (obj : Document.PDFObject) (body : string) :
  Document.Dictionary obj !! "Contents"
  = Some (VString ("[" +:+ body +:+ "]")) ->
  forallb plain_char (GoString.chars body) = true ->
  Forall (fun item => Utils.IsReference item = false)
    (Utils.ParseArray ("[" +:+ body +:+ "]"))
  /\ Document.pageContents doc obj = [].
Proof.
  intros Hcontents Hplain.
  assert (Hitems :
    Forall (fun item => no_space (GoString.chars item) = true)
      (Utils.ParseArray ("[" +:+ body +:+ "]"))).
  { unfold Utils.ParseArray.
    rewrite (HasPrefix_wrapped "[" "]"), (HasSuffix_wrapped "[" "]").
    cbn [negb orb]. rewrite (body_of_wrapped "[" "]").
    apply parseArrayLoop_plain; [assumption | constructor | reflexivity]. }
  split.
  - eapply Forall_impl; [exact Hitems |]. intros item Hitem.
    unfold Utils.IsReference. now rewrite (find_ref_no_space _ Hitem).
  - unfold Document.pageContents. rewrite Hcontents.
    rewrite (HasPrefix_wrapped "[" "]").
    now apply fold_appendContent_no_space.
Qed.

Lemma pageContents_flat_array_witness :
  Document.Dictionary (page_object 3 "[4 0 R 5 0 R]") !! "Contents"
  = Some (VString ("[" +:+ "4 0 R 5 0 R" +:+ "]"))
  /\ forallb plain_char (GoString.chars "4 0 R 5 0 R") = true
  /\ Forall (fun item => Utils.IsReference item = false)
       (Utils.ParseArray ("[" +:+ "4 0 R 5 0 R" +:+ "]"))
  /\ Document.pageContents (two_stream_document "[4 0 R 5 0 R]")
       (page_object 3 "[4 0 R 5 0 R]") = [].
Proof.
  assert (H1 : Document.Dictionary (page_object 3 "[4 0 R 5 0 R]")
               !! "Contents"
               = Some (VString ("[" +:+ "4 0 R 5 0 R" +:+ "]")))
    by (vm_compute; reflexivity).
  assert (H2 : forallb plain_char (GoString.chars "4 0 R 5 0 R") = true)
    by reflexivity.
  exact (conj H1 (conj H2
           (pageContents_flat_array
              (two_stream_document "[4 0 R 5 0 R]")
              (page_object 3 "[4 0 R 5 0 R]") "4 0 R 5 0 R" H1 H2))).
Defined.

Lemma pageContents_plain_array
    (doc : Document.PDFDocument) (obj : Document.PDFObject) (body : string) :
  Document.Dictionary obj !! "Contents"
  = Some (VString ("[" +:+ body +:+ "]")) ->
  forallb plain_char (GoString.chars body) = true ->
  Document.pageContents doc obj = [].
Proof.
  intros Hcontents Hplain.
  unfold Document.pageContents. rewrite Hcontents.
  rewrite (HasPrefix_wrapped "[" "]").
  apply fold_appendContent_no_space. unfold Utils.ParseArray.
  rewrite (HasPrefix_wrapped "[" "]"), (HasSuffix_wrapped "[" "]").
  cbn [negb orb]. rewrite (body_of_wrapped "[" "]").
  apply parseArrayLoop_plain; [assumption | constructor | reflexivity].
Qed.

(** C5: for a page whose [/Contents] value is an array of references
    written as PDF writes it, [[4 0 R 5 0 R]] (no nested bracket between
    the outer ones), the walk of the page tree stores the page with no
    content byte at all, whatever the streams referenced hold; nothing
    is concatenated.  The page is stored when its [/MediaBox] and
    [/Resources] entries do not make the walk panic. *)
Theorem processPageTree_flat_contents_array
    (fuel : nat) (doc : Document.PDFDocument) (objNum pageCounter : Z)
    (obj : Document.PDFObject) (body : string) :
  Document.Objects doc !! objNum = Some obj ->
  Document.Dictionary obj !! "Type" = Some (VString "/Page") ->
  Document.mediaBoxBlock obj = Ok tt ->
  Document.resourcesBlock obj = Ok tt ->
  Document.Dictionary obj !! "Contents"
  = Some (VString ("[" +:+ body +:+ "]")) ->
  forallb plain_char (GoString.chars body) = true ->
  Document.processPageTree (Datatypes.S fuel) doc objNum pageCounter
  = Ok (Document.addPage doc
          {| Document.PageNumber := pageCounter;
             Document.Contents := [];
             Document.Text := [] |},
        pageCounter + 1).
Proof.
  intros Hobj Htype Hmedia Hres Hcontents Hplain.
  cbn [Document.processPageTree]. rewrite Hobj, Htype.
  change (String.eqb "/Page" "/Pages") with false.
  change (String.eqb "/Page" "/Page") with true. cbv iota.
  rewrite Hmedia, Hres. simpl.
  now rewrite (pageContents_plain_array doc obj body Hcontents Hplain).
Qed.

Lemma processPageTree_flat_contents_array_witness :
  Document.Objects (two_stream_document "[4 0 R 5 0 R]") !! 3
  = Some (page_object 3 "[4 0 R 5 0 R]")
  /\ Document.Dictionary (page_object 3 "[4 0 R 5 0 R]") !! "Type"
     = Some (VString "/Page")
  /\ Document.mediaBoxBlock (page_object 3 "[4 0 R 5 0 R]") = Ok tt
  /\ Document.resourcesBlock (page_object 3 "[4 0 R 5 0 R]") = Ok tt
  /\ Document.Dictionary (page_object 3 "[4 0 R 5 0 R]") !! "Contents"
     = Some (VString ("[" +:+ "4 0 R 5 0 R" +:+ "]"))
  /\ forallb plain_char (GoString.chars "4 0 R 5 0 R") = true
  /\ Document.processPageTree 1 (two_stream_document "[4 0 R 5 0 R]") 3 1
     = Ok (Document.addPage (two_stream_document "[4 0 R 5 0 R]")
             {| Document.PageNumber := 1;
                Document.Contents := [];
                Document.Text := [] |},
           1 + 1).
Proof.
  assert (H1 : Document.Objects (two_stream_document "[4 0 R 5 0 R]") !! 3
               = Some (page_object 3 "[4 0 R 5 0 R]"))
    by (vm_compute; reflexivity).
  assert (H2 : Document.Dictionary (page_object 3 "[4 0 R 5 0 R]") !! "Type"
               = Some (VString "/Page"))
    by (vm_compute; reflexivity).
  assert (H3 : Document.mediaBoxBlock (page_object 3 "[4 0 R 5 0 R]")
               = Ok tt)
    by (vm_compute; reflexivity).
  assert (H4 : Document.resourcesBlock (page_object 3 "[4 0 R 5 0 R]")
               = Ok tt)
    by (vm_compute; reflexivity).
  assert (H5 : Document.Dictionary (page_object 3 "[4 0 R 5 0 R]")
                 !! "Contents"
               = Some (VString ("[" +:+ "4 0 R 5 0 R" +:+ "]")))
    by (vm_compute; reflexivity).
  assert (H6 : forallb plain_char (GoString.chars "4 0 R 5 0 R") = true)
    by reflexivity.
  exact (conj H1 (conj H2 (conj H3 (conj H4 (conj H5 (conj H6
           (processPageTree_flat_contents_array 0
              (two_stream_document "[4 0 R 5 0 R]") 3 1
              (page_object 3 "[4 0 R 5 0 R]") "4 0 R 5 0 R"
              H1 H2 H3 H4 H5 H6))))))).
Defined.

(** The blocks that come before the contents can stop the walk: a page
    whose [/Resources] value is the two bytes [<<] makes the slice
    [res[2 : len(res)-2]] panic, and no page is stored. *)
Example processPageTree_resources_panic :
  Document.processPageTree 1
    {| Document.Objects :=
         <[3 := {| Document.ObjectNumber := 3;
                   Document.Generation := 0;
                   Document.Content := "";
                   Document.Dictionary :=
                     <["Type" := VString "/Page"]>
                       (<["Resources" := VString "<<"]> ∅);
                   Document.Stream := [];
                   Document.IsStream := false |}]> ∅;
       Document.Pages := [];
       Document.TextChunks := [];
       Document.Fonts := ∅;
       Document.RootCatalog := 1 |} 3 1
  = Panic "slice bounds out of range".
Proof. vm_compute. reflexivity. Qed.

(** ** Strings *)

Lemma str_app (a b : list ascii) :
  GoString.str (a ++ b) = GoString.str a +:+ GoString.str b.
Proof.
  unfold GoString.str. induction a as [| c a IH]; simpl;
    [reflexivity | now rewrite IH].
Qed.

Lemma length_chars (s : string) :
  length (GoString.chars s) = String.length s.
Proof.
  unfold GoString.chars. induction s as [| c s IH]; simpl;
    [reflexivity | now rewrite IH].
Qed.

Lemma parse_hex_pair_hex_char (c : ascii) :
  Utils.parse_hex_pair (hex_char (GoString.byte_of c / 16))
    (hex_char (GoString.byte_of c mod 16)) = Ok c.
Proof. destruct c as [[] [] [] [] [] [] [] []]; vm_compute; reflexivity. Qed.

Lemma decodeHexLoop_hex_encode (l : list ascii) :
  forall bytes, Utils.decodeHexLoop (hex_encode l) bytes = Ok (bytes ++ l).
Proof.
  induction l as [| c l IH]; intros bytes.
  - simpl. now rewrite app_nil_r.
  - cbn [hex_encode Utils.decodeHexLoop].
    rewrite parse_hex_pair_hex_char. simpl. rewrite IH.
    now rewrite <- app_assoc.
Qed.

Lemma decodeHexLoop_hex_encode_odd (l : list ascii) (d : ascii) (x : Z) :
  Utils.hex_digit d = Some x ->
  forall bytes,
    Utils.decodeHexLoop (hex_encode l ++ [d]) bytes
    = Ok (bytes ++ l ++ [Utils.char_of (16 * x)]).
Proof.
  intros Hd. induction l as [| c l IH]; intros bytes.
  - cbn [hex_encode app Utils.decodeHexLoop]. unfold Utils.parse_hex_pair.
    rewrite Hd. change (Utils.hex_digit "0") with (Some 0). simpl.
    now rewrite Z.add_0_r.
  - cbn [hex_encode app Utils.decodeHexLoop].
    rewrite parse_hex_pair_hex_char. simpl. rewrite IH.
    now rewrite <- app_assoc.
Qed.

(** X18: a hex string is read back byte for byte: the two hexadecimal
    digits of every byte of [s], between angle brackets, decode to [s];
    a last digit left alone is read as the high half of a byte. *)
Theorem DecodePDFString_hex_round_trip (s : string) :
  Utils.DecodePDFString
    ("<" +:+ GoString.str (hex_encode (GoString.chars s)) +:+ ">") = Ok s
  /\ forall d x,
       Utils.hex_digit d = Some x ->
       Utils.DecodePDFString
         ("<" +:+ GoString.str (hex_encode (GoString.chars s) ++ [d]) +:+ ">")
       = Ok (s +:+ String (Utils.char_of (16 * x)) "").
Proof.
  split; [| intros d x Hd]; unfold Utils.DecodePDFString;
    rewrite (HasPrefix_wrapped "<" ">"), (HasSuffix_wrapped "<" ">");
    cbn [andb]; rewrite (body_of_wrapped "<" ">"), chars_str.
  - rewrite decodeHexLoop_hex_encode. simpl. now rewrite str_chars.
  - rewrite (decodeHexLoop_hex_encode_odd _ d x Hd). simpl.
    now rewrite str_app, str_chars.
Qed.

Lemma decodeLiteralLoop_plain (s : list ascii) :
  forallb (fun c => negb (Ascii.eqb c "\")) s = true ->
  forall out, Utils.decodeLiteralLoop s out = out ++ s.
Proof.
  induction s as [| c rest IH]; intros Hs out.
  - simpl. now rewrite app_nil_r.
  - simpl in Hs. apply andb_true_iff in Hs as [Hc Hrest].
    apply negb_true_iff in Hc.
    destruct rest as [| e rest1]; [reflexivity |].
    transitivity (Utils.decodeLiteralLoop (e :: rest1) (out ++ [c])).
    + cbn [Utils.decodeLiteralLoop]. now rewrite Hc.
    + rewrite (IH Hrest). now rewrite <- app_assoc.
Qed.

(** X19: a literal string without a backslash is returned as the text
    between its parentheses. *)
Theorem DecodePDFString_literal_plain (body : string) :
  forallb (fun c => negb (Ascii.eqb c "\")) (GoString.chars body) = true ->
  Utils.DecodePDFString ("(" +:+ body +:+ ")") = Ok body.
Proof.
  intros Hbody. unfold Utils.DecodePDFString.
  assert (Hhex : GoString.HasPrefix ("(" +:+ body +:+ ")") "<" = false)
    by (unfold GoString.HasPrefix; now rewrite (chars_wrapped "(" ")")).
  rewrite Hhex, (HasPrefix_wrapped "(" ")"), (HasSuffix_wrapped "(" ")").
  cbn [andb]. rewrite (body_of_wrapped "(" ")").
  rewrite (decodeLiteralLoop_plain _ Hbody). simpl. now rewrite str_chars.
Qed.

Lemma DecodePDFString_literal_plain_witness :
  forallb (fun c => negb (Ascii.eqb c "\")) (GoString.chars "Hello (PDF)")
  = true
  /\ Utils.DecodePDFString ("(" +:+ "Hello (PDF)" +:+ ")")
     = Ok "Hello (PDF)".
Proof.
  assert (H : forallb (fun c => negb (Ascii.eqb c "\"))
                (GoString.chars "Hello (PDF)") = true) by reflexivity.
  exact (conj H (DecodePDFString_literal_plain "Hello (PDF)" H)).
Defined.

Lemma decodeHexLoop_length (n : nat) :
  forall hexStr bytes decoded,
    (length hexStr <= n)%nat ->
    Utils.decodeHexLoop hexStr bytes = Ok decoded ->
    (length decoded <= length bytes + length hexStr)%nat.
Proof.
  induction n as [| n IH]; intros hexStr bytes decoded Hn H;
    destruct hexStr as [| a [| b rest']]; cbn [length] in *; try lia.
  - inversion H; subst. lia.
  - inversion H; subst. lia.
  - cbn [Utils.decodeHexLoop] in H.
    destruct (Utils.parse_hex_pair a "0"); simpl in H; inversion H; subst.
    rewrite length_app. simpl. lia.
  - cbn [Utils.decodeHexLoop] in H.
    destruct (Utils.parse_hex_pair a b); simpl in H; try discriminate.
    apply IH in H; [| lia]. rewrite length_app in H. simpl in H. lia.
Qed.

Ltac literal_step IH :=
  eapply Nat.le_trans;
  [ apply IH; cbn [length] in *; lia
  | rewrite ?length_app; cbn [length]; lia ].

Lemma decodeLiteralLoop_length (n : nat) :
  forall s out,
    (length s <= n)%nat ->
    (length (Utils.decodeLiteralLoop s out) <= length out + length s)%nat.
Proof.
  induction n as [| n IH]; intros s out Hn.
  - destruct s; [simpl; lia | simpl in Hn; lia].
  - destruct s as [| c [| e rest1]].
    + simpl. lia.
    + simpl. rewrite length_app. simpl. lia.
    + destruct (Ascii.eqb c "\") eqn:Ec.
      * cbn [Utils.decodeLiteralLoop]. rewrite Ec.
        destruct (Utils.escape_char e); [literal_step IH |].
        destruct (_ || _).
        { destruct rest1 as [| l rest2]; [literal_step IH |].
          destruct (_ && _); literal_step IH. }
        destruct (Utils.isOctalDigit e); [| literal_step IH].
        destruct rest1 as [| d2 rest2]; [literal_step IH |].
        destruct (Utils.isOctalDigit d2); [| literal_step IH].
        destruct rest2 as [| d3 rest3]; [literal_step IH |].
        destruct (Utils.isOctalDigit d3); [| literal_step IH].
        cbv zeta. destruct (_ <=? 255); literal_step IH.
      * assert (Hstep : Utils.decodeLiteralLoop (c :: e :: rest1) out
                        = Utils.decodeLiteralLoop (e :: rest1) (out ++ [c]))
          by (cbn [Utils.decodeLiteralLoop]; now rewrite Ec).
        rewrite Hstep. literal_step IH.
Qed.

Lemma length_removelast_tl {A : Type} (l : list A) :
  (length (removelast (tl l)) <= length l)%nat.
Proof.
  rewrite removelast_firstn_len, length_firstn. destruct l; simpl; lia.
Qed.

(** X20: [DecodePDFString] never returns more bytes than it is given. *)
Theorem DecodePDFString_not_longer (s decoded : string) :
  Utils.DecodePDFString s = Ok decoded ->
  (String.length decoded <= String.length s)%nat.
Proof.
  unfold Utils.DecodePDFString.
  pose proof (length_removelast_tl (GoString.chars s)) as Hbody.
  rewrite length_chars in Hbody.
  destruct (_ && _).
  - destruct (Utils.decodeHexLoop _ _) as [bytes | |] eqn:E; simpl;
      try discriminate.
    intros [= <-]. rewrite length_str.
    apply (decodeHexLoop_length _ _ _ _ (le_n _)) in E. simpl in E. lia.
  - destruct (_ && _); intros [= <-]; [| lia].
    rewrite length_str.
    pose proof (decodeLiteralLoop_length _
                  (removelast (tl (GoString.chars s))) [] (le_n _)) as H.
    simpl in H. etransitivity; [exact H | exact Hbody].
Qed.

Lemma DecodePDFString_not_longer_witness :
  Utils.DecodePDFString "<48656C6C6F>" = Ok "Hello"
  /\ (String.length "Hello" <= String.length "<48656C6C6F>")%nat.
Proof.
  assert (H : Utils.DecodePDFString "<48656C6C6F>" = Ok "Hello")
    by reflexivity.
  exact (conj H (DecodePDFString_not_longer "<48656C6C6F>" "Hello" H)).
Defined.

Example DecodePDFString_escapes :
  Utils.DecodePDFString "(a\)\101\53\9z)"
  = Ok "a)A+9z".
Proof. reflexivity. Qed.

(** ** Text strings *)

Lemma decodeTextLoop_ext (font1 font2 : Document.PDFFont) :
  (forall code, Text.mapCode font1 code = Text.mapCode font2 code) ->
  forall n textBytes out,
    (length textBytes <= n)%nat ->
    Text.decodeTextLoop font1 textBytes out
    = Text.decodeTextLoop font2 textBytes out.
Proof.
  intros Hmap. induction n as [| n IH]; intros textBytes out Hn.
  - destruct textBytes; [| simpl in Hn; lia].
    now rewrite !Text.decodeTextLoop_equation_1.
  - destruct textBytes as [| c rest];
      [now rewrite !Text.decodeTextLoop_equation_1 |].
    simpl in Hn. rewrite !Text.decodeTextLoop_equation_2. cbv zeta.
    rewrite !Hmap.
    destruct (_ && _); [| apply IH; lia].
    destruct (Text.escape_rune _);
      [apply IH; rewrite length_skipn; lia |].
    destruct (Text.isOctal _); [| apply IH; rewrite length_skipn; lia].
    destruct (_ && _); apply IH; rewrite length_skipn; lia.
Qed.

Lemma decodeTextLoop_out (font : Document.PDFFont) (n : nat) :
  forall textBytes out,
    (length textBytes <= n)%nat ->
    Text.decodeTextLoop font textBytes out
    = out ++ Text.decodeTextLoop font textBytes [].
Proof.
  induction n as [| n IH]; intros textBytes out Hn.
  - destruct textBytes; [| simpl in Hn; lia].
    rewrite !Text.decodeTextLoop_equation_1. now rewrite app_nil_r.
  - destruct textBytes as [| c rest];
      [rewrite !Text.decodeTextLoop_equation_1; now rewrite app_nil_r |].
    simpl in Hn.
    rewrite (Text.decodeTextLoop_equation_2 font c rest out),
      (Text.decodeTextLoop_equation_2 font c rest []).
    cbv zeta.
    assert (Hstep : forall rest' w,
              (length rest' <= n)%nat ->
              Text.decodeTextLoop font rest' (out ++ [w])
              = out ++ Text.decodeTextLoop font rest' ([] ++ [w])).
    { intros rest' w Hl. rewrite (IH rest' (out ++ [w]) Hl).
      rewrite (IH rest' ([] ++ [w]) Hl). now rewrite <- app_assoc. }
    destruct (_ && _); [| apply Hstep; lia].
    destruct (Text.escape_rune _);
      [apply Hstep; rewrite length_skipn; lia |].
    destruct (Text.isOctal _); [| apply Hstep; rewrite length_skipn; lia].
    destruct (_ && _); apply Hstep; rewrite length_skipn; lia.
Qed.

Lemma mapCode_identity (font : Document.PDFFont) :
  (forall code char,
     Document.CodeToUnicode font !! code = Some char -> char = code) ->
  forall code, Text.mapCode font code = Text.mapCode Text.zeroFont code.
Proof.
  intros Hid code. unfold Text.mapCode. simpl. rewrite lookup_empty.
  destruct (Document.CodeToUnicode font !! code) as [char |] eqn:E;
    [now apply Hid | reflexivity].
Qed.

(** X21: the default fonts leave the decoding of a text string to the
    fallback of [decodeText]: the font of [GetDefaultFont] and the font
    [createDefaultFont] stores decode every byte string as the font
    without any mapping does. *)
Theorem decodeText_default_fonts
    (textBytes : list Z) (fonts : gmap string Document.PDFFont) :
  Text.decodeText textBytes Text.GetDefaultFont
  = Text.decodeText textBytes Text.zeroFont
  /\ exists font,
       Text.createDefaultFont fonts !! "/DefaultFont" = Some font
       /\ Text.decodeText textBytes font
          = Text.decodeText textBytes Text.zeroFont.
Proof.
  split; [| eexists; split; [apply lookup_insert_eq |]];
    unfold Text.decodeText;
    apply (fun H => decodeTextLoop_ext _ _ H _ _ _ (le_n _));
    apply mapCode_identity; intros code char; simpl;
    rewrite !identityRange_lookup, lookup_empty;
    repeat match goal with
           | |- context [if ?b then _ else _] => destruct b
           end; congruence.
Qed.

Lemma decodeTextLoop_plain (font : Document.PDFFont) (textBytes : list Z) :
  Forall (fun b => b <> 92) textBytes ->
  forall out,
    Text.decodeTextLoop font textBytes out
    = out ++ map (fun b => Text.WriteRune (Text.mapCode font b)) textBytes.
Proof.
  induction 1 as [| c rest Hc _ IH]; intros out.
  - rewrite Text.decodeTextLoop_equation_1. now rewrite app_nil_r.
  - rewrite Text.decodeTextLoop_equation_2. cbv zeta.
    destruct (Z.eqb_spec c 92); [contradiction |].
    cbn [andb]. rewrite IH. cbn [map]. now rewrite <- app_assoc.
Qed.

(** X22: a text string without a backslash is decoded byte by byte: each
    byte is sent through the font's map, or kept when the map has no entry
    for it. *)
Theorem decodeText_plain (font : Document.PDFFont) (textBytes : list Z) :
  Forall (fun b => b <> 92) textBytes ->
  Text.decodeText textBytes font
  = map (fun b => Text.WriteRune (Text.mapCode font b)) textBytes.
Proof.
  intros H. unfold Text.decodeText. now rewrite decodeTextLoop_plain.
Qed.

Lemma decodeText_plain_witness :
  Forall (fun b => b <> 92) [72; 105]
  /\ Text.decodeText [72; 105] Text.GetDefaultFont
     = map (fun b => Text.WriteRune (Text.mapCode Text.GetDefaultFont b))
         [72; 105].
Proof.
  assert (H : Forall (fun b => b <> 92) [72; 105])
    by (repeat (apply Forall_cons_2; [lia |]); apply Forall_nil_2).
  exact (conj H (decodeText_plain Text.GetDefaultFont [72; 105] H)).
Defined.

(** X23: after an escape of three octal digits the loop moves five bytes
    on, so the byte that follows the escape is not decoded at all. *)
Theorem decodeText_octal_escape
    (font : Document.PDFFont) (d1 d2 d3 x : Z) (rest : list Z) :
  Text.isOctal d1 = true -> Text.isOctal d2 = true ->
  Text.isOctal d3 = true ->
  Text.decodeText (92 :: d1 :: d2 :: d3 :: x :: rest) font
  = Text.WriteRune
      (Text.mapCode font (64 * (d1 - 48) + 8 * (d2 - 48) + (d3 - 48)))
    :: Text.decodeText rest font.
Proof.
  intros H1 H2 H3. unfold Text.decodeText.
  rewrite Text.decodeTextLoop_equation_2. cbv zeta.
  assert (Hlen : (0 <? len (d1 :: d2 :: d3 :: x :: rest)) = true)
    by (apply Z.ltb_lt; unfold len; simpl length; lia).
  assert (Hlen2 : (2 <? len (d1 :: d2 :: d3 :: x :: rest)) = true)
    by (apply Z.ltb_lt; unfold len; simpl length; lia).
  rewrite Hlen, Hlen2. cbn [nth skipn andb Z.eqb Pos.eqb].
  assert (Hesc : Text.escape_rune d1 = None).
  { unfold Text.isOctal in H1. apply andb_true_iff in H1 as [Ha Hb].
    apply Z.leb_le in Ha, Hb. unfold Text.escape_rune.
    repeat match goal with
           | |- context [?a =? ?b] => destruct (Z.eqb_spec a b); [lia |]
           end.
    reflexivity. }
  rewrite Hesc, H1, H2, H3. cbn [andb app].
  change (drop 0 rest) with rest.
  apply (decodeTextLoop_out font _ rest [_] (le_n _)).
Qed.

Lemma decodeText_octal_escape_witness :
  Text.isOctal 49 = true /\ Text.isOctal 48 = true
  /\ Text.isOctal 49 = true
  /\ Text.decodeText (92 :: 49 :: 48 :: 49 :: 66 :: [67]) Text.zeroFont
     = Text.WriteRune
         (Text.mapCode Text.zeroFont
            (64 * (49 - 48) + 8 * (48 - 48) + (49 - 48)))
       :: Text.decodeText [67] Text.zeroFont.
Proof.
  assert (H1 : Text.isOctal 49 = true) by reflexivity.
  assert (H2 : Text.isOctal 48 = true) by reflexivity.
  exact (conj H1 (conj H2 (conj H1
           (decodeText_octal_escape Text.zeroFont 49 48 49 66 [67]
              H1 H2 H1)))).
Defined.

(** ** Encodings and the default font *)

(** X24: for a code of 0..255, WinAnsi always has a character, the code
    itself outside 128..159; MacRoman always has a character too, the
    code itself below 128 and a space for the code 240; the identity
    encoding has the ASCII codes only. *)
Theorem encodings_cover_bytes (c : Z) :
  0 <= c <= 255 -> encodings_cover c.
Proof.
  intros Hc.
  assert (Hall : forallb (fun c => bool_decide (encodings_cover c))
                   (seqZ 0 256) = true) by (vm_compute; reflexivity).
  rewrite forallb_forall in Hall.
  assert (Hin : In c (seqZ 0 256))
    by (apply list_elem_of_In, elem_of_seqZ; lia).
  apply Hall in Hin. now apply bool_decide_eq_true_1 in Hin.
Qed.

Lemma encodings_cover_bytes_witness :
  0 <= 240 <= 255 /\ encodings_cover 240.
Proof.
  assert (H : 0 <= 240 <= 255) by lia.
  exact (conj H (encodings_cover_bytes 240 H)).
Defined.

(** X25: the closing statements of [ProcessFonts] keep every font that is
    in the table and leave the table with an entry [/DefaultFont]. *)
Theorem ensureDefaultFont_extends (fonts : gmap string Document.PDFFont) :
  fonts ⊆ Text.ensureDefaultFont fonts
  /\ is_Some (Text.ensureDefaultFont fonts !! "/DefaultFont").
Proof.
  split; [| apply ensureDefaultFont_has_default].
  unfold Text.ensureDefaultFont.
  destruct (Z.eqb_spec (Z.of_nat (size fonts)) 0) as [Hsize | Hsize].
  - assert (Hempty : fonts = ∅) by (apply map_size_empty_iff; lia).
    subst fonts. apply map_empty_subseteq.
  - destruct (fonts !! "/DefaultFont") eqn:E; [reflexivity |].
    unfold Text.createDefaultFont. now apply insert_subseteq.
Qed.

(** ** References *)

(** X26: [ExtractReference] and [IsReference] agree: a string that is not
    a reference gives the format error, and an object number that is
    returned belongs to a reference and is a value of 0..2^63-1. *)
Theorem ExtractReference_IsReference (ref : string) :
  (Utils.IsReference ref = false ->
   Utils.ExtractReference ref = Err ("invalid reference format: " +:+ ref))
  /\ forall objNum,
       Utils.ExtractReference ref = Ok objNum ->
       Utils.IsReference ref = true /\ 0 <= objNum <= GoString.max_int64.
Proof.
  unfold Utils.IsReference, Utils.ExtractReference.
  destruct (Utils.find_ref (GoString.chars ref)) as [d |];
    [| split; [reflexivity | discriminate]].
  split; [discriminate |]. intros objNum H.
  destruct (GoString.parse_digits d) as [v | |] eqn:P; inversion H; subst.
  split; [reflexivity |]. now apply parse_digits_bounds in P.
Qed.
